(** * control.py: the flight-data loader and the focus cost function

    A shallow embedding of [load_flight_data] and [vmi_cost_function] of
    control.py, with the parts of Python, numpy and pandas they call. *)

From Stdlib Require Import List ZArith Lia Bool Ascii String Floats Permutation.
Import ListNotations.

Local Open Scope string_scope.
Local Open Scope Z_scope.

(** ** Python strings *)

Module Py.

(** The line terminator and the double quote, as characters. *)
Definition LF : ascii := ascii_of_nat 10.
Definition DQ : ascii := ascii_of_nat 34.
Definition COMMA : ascii := ascii_of_nat 44.
Definition HASH : ascii := ascii_of_nat 35.

Definition chr (c : ascii) : string := String c EmptyString.

(** [quoted s] is [s] inside one pair of double quotes. *)
Definition quoted (s : string) : string := String DQ (s ++ chr DQ).

Fixpoint startswith (p s : string) : bool :=
  match p, s with
  | EmptyString, _ => true
  | String a p', String b s' => Ascii.eqb a b && startswith p' s'
  | String _ _, EmptyString => false
  end.

(** [needle in hay] *)
Fixpoint contains (needle hay : string) : bool :=
  startswith needle hay ||
  match hay with
  | EmptyString => false
  | String _ hay' => contains needle hay'
  end.

(** [s.split(sep)] for a one-character separator: never an empty list. *)
Fixpoint split (sep : ascii) (s : string) : list string :=
  match s with
  | EmptyString => [EmptyString]
  | String c s' =>
      if Ascii.eqb c sep then EmptyString :: split sep s'
      else match split sep s' with
           | [] => [chr c]
           | f :: fs => String c f :: fs
           end
  end.

(** A slice bound: negative bounds count from the end, and every bound is
    clamped to the string. *)
Definition bound (len i : Z) : nat :=
  Z.to_nat (Z.min len (Z.max 0 (if i <? 0 then i + len else i))).

(** [s[start:stop]] *)
Definition slice (start stop : Z) (s : string) : string :=
  let len := Z.of_nat (String.length s) in
  let a := bound len start in
  let b := bound len stop in
  substring a (b - a) s.

(** [xs[i] = v] on a list, for [i] in range. *)
Fixpoint setitem {A} (xs : list A) (i : nat) (v : A) : list A :=
  match xs, i with
  | [], _ => []
  | _ :: xs', O => v :: xs'
  | x :: xs', S i' => x :: setitem xs' i' v
  end.

(** Iterating over a text file: the text cut after every line terminator,
    each line keeping its terminator; a last line without one is kept too. *)
Fixpoint readlines (text : string) : list string :=
  match text with
  | EmptyString => []
  | String c rest =>
      if Ascii.eqb c LF then chr c :: readlines rest
      else match readlines rest with
           | [] => [chr c]
           | l :: ls => String c l :: ls
           end
  end.

End Py.

(** ** The header scan of [load_flight_data] *)

(** The marker of the only line that holds the column names. *)
Definition marker : string := Py.quoted "Ion N".

(** The loop over [enumerate(df_index)]: position [i] of the list is read and
    overwritten in place, first without its last character when it holds a
    line terminator, then, from the same [idx], without its first and last
    character. *)
Fixpoint strip_loop (n i : nat) (df_index : list string) : list string :=
  match n with
  | O => df_index
  | S n' =>
      match nth_error df_index i with
      | None => df_index
      | Some idx =>
          let df1 :=
            if Py.contains (Py.chr Py.LF) idx
            then Py.setitem df_index i (Py.slice 0 (-1) idx)
            else df_index in
          let df2 := Py.setitem df1 i (Py.slice 1 (-1) idx) in
          strip_loop n' (S i) df2
      end
  end.

Definition strip_fields (df_index : list string) : list string :=
  strip_loop (List.length df_index) 0 df_index.

(** The scan over the lines of the file: the first line that contains the
    marker gives the names and ends the scan; without one the list of names
    stays empty. *)
Fixpoint header_scan (lines : list string) : list string :=
  match lines with
  | [] => []
  | line :: rest =>
      if Py.contains marker line
      then strip_fields (Py.split Py.COMMA line)
      else header_scan rest
  end.

(** ** Exceptions and outcomes *)

(** What a [ValueError] of numpy or pandas is about. *)
Inductive value_error :=
| CouldNotConvert (tok : string)
| WrongNumberOfColumns
| ShapeMismatch (passed implied : nat * nat)
| MustPass2d
| CannotInsert (label : string).

(** The exceptions the two functions can end with; the source defines no
    exception class of its own and catches none. *)
Inductive exn :=
| FileNotFoundError (path : string)
| ValueError (why : value_error)
| KeyError (label : string)
| IndexError
| IndexingError
| AttributeError (attr : string).

Definition class_name (e : exn) : string :=
  match e with
  | FileNotFoundError _ => "FileNotFoundError"
  | ValueError _ => "ValueError"
  | KeyError _ => "KeyError"
  | IndexError => "IndexError"
  | IndexingError => "IndexingError"
  | AttributeError _ => "AttributeError"
  end.

Inductive outcome (A : Type) :=
| Return (a : A)
| Raise (e : exn).

Arguments Return {A} a.
Arguments Raise {A} e.

Definition obind {A B} (o : outcome A) (k : A -> outcome B) : outcome B :=
  match o with
  | Return a => k a
  | Raise e => Raise e
  end.

Declare Scope outcome_scope.
Delimit Scope outcome_scope with outcome.
Notation "'let!' x ':=' o 'in' k" := (obind o (fun x => k))
  (at level 10, x pattern, o at level 200, k at level 200) : outcome_scope.
Local Open Scope outcome_scope.

(** [fails_with name o]: the call ended with an exception of class [name]. *)
Definition fails_with {A} (name : string) (o : outcome A) : Prop :=
  exists e, o = Raise e /\ class_name e = name.

(** ** numpy *)

(** The conversion of one field of a data row to a float64: the conversion
    routine of [np.loadtxt], [None] where it rejects the field. *)
Class FloatReader := float_of_string : string -> option float.

Module Np.

Inductive ndarray :=
| Array0 (x : float)
| Array1 (xs : list float)
| Array2 (rows : list (list float)).

(** The text of a line up to its terminator or to the comment character. *)
Fixpoint content (line : string) : string :=
  match line with
  | EmptyString => EmptyString
  | String c rest =>
      if Ascii.eqb c Py.HASH || Ascii.eqb c Py.LF then EmptyString
      else String c (content rest)
  end.

(** The fields of a line; a line without content has none and is skipped. *)
Definition fields (line : string) : list string :=
  match content line with
  | EmptyString => []
  | s => Py.split Py.COMMA s
  end.

Section Reader.
Context {reader : FloatReader}.

Fixpoint convert (toks : list string) : outcome (list float) :=
  match toks with
  | [] => Return []
  | tok :: rest =>
      match float_of_string tok with
      | None => Raise (ValueError (CouldNotConvert tok))
      | Some x => let! xs := convert rest in Return (x :: xs)
      end
  end.

(** The rows of the lines read: every line with content has the number of
    fields of the first such line, and every field converts. *)
Fixpoint read_rows (ncols : option nat) (lines : list string)
  : outcome (list (list float)) :=
  match lines with
  | [] => Return []
  | line :: rest =>
      match fields line with
      | [] => read_rows ncols rest
      | toks =>
          let n := List.length toks in
          if match ncols with Some c => negb (Nat.eqb n c) | None => false end
          then Raise (ValueError WrongNumberOfColumns)
          else
            let! row := convert toks in
            let! rows := read_rows (Some n) rest in
            Return (row :: rows)
      end
  end.

(** The default [ndmin=0]: axes of length one are squeezed out, and no row
    at all gives an empty array of one axis. *)
Definition squeeze (rows : list (list float)) : ndarray :=
  match rows with
  | [] => Array1 []
  | [[x]] => Array0 x
  | [row] => Array1 row
  | [_] :: _ => Array1 (List.concat rows)
  | _ => Array2 rows
  end.

(** [np.loadtxt(fname, skiprows=skiprows, delimiter=',')] on the text of the
    file. *)
Definition loadtxt (text : string) (skiprows : nat) : outcome ndarray :=
  let! rows := read_rows None (skipn skiprows (Py.readlines text)) in
  Return (squeeze rows).

End Reader.

End Np.

(** ** pandas *)

Module Pd.

(** A column holds the row positions [reset_index] moves into the table
    (int64) or numbers of the file (float64). *)
Inductive column :=
| Int64 (xs : list Z)
| Float64 (xs : list float).

(** A table: the labels of its rows, and its labelled columns in order. *)
Record DataFrame := mkDataFrame {
  index : list Z;
  columns : list (string * column)
}.

Definition labels (df : DataFrame) : list string := map fst (columns df).

Definition has_label (l : string) (df : DataFrame) : bool :=
  existsb (String.eqb l) (labels df).

Definition col_length (c : column) : nat :=
  match c with
  | Int64 xs => List.length xs
  | Float64 xs => List.length xs
  end.

Definition nrows (df : DataFrame) : nat := List.length (index df).

(** [range(n)] as row labels. *)
Definition range (n : nat) : list Z := map Z.of_nat (seq 0 n).

(** Column [j] of a table given by rows. *)
Definition column_of (rows : list (list float)) (j : nat) : column :=
  Float64 (map (fun r => nth j r nan) rows).

Definition of_rows (rows : list (list float)) (ncols : nat)
    (names : list string) : outcome DataFrame :=
  if Nat.eqb ncols (List.length names)
  then Return {| index := range (List.length rows);
                 columns := combine names (map (column_of rows) (seq 0 ncols)) |}
  else Raise (ValueError (ShapeMismatch (List.length rows, ncols)
                                        (List.length rows, List.length names))).

(** [pd.DataFrame(data, columns=names)]: an array of one axis is one column,
    an array of no axis is refused, and the names have to be as many as the
    columns. *)
Definition frame (data : Np.ndarray) (names : list string) : outcome DataFrame :=
  match data with
  | Np.Array0 _ => Raise (ValueError MustPass2d)
  | Np.Array1 xs => of_rows (map (fun x => [x]) xs) 1 names
  | Np.Array2 rows => of_rows rows (List.length (hd [] rows)) names
  end.

(** [xs[::2]] *)
Fixpoint every_other {A} (xs : list A) : list A :=
  match xs with
  | [] => []
  | [x] => [x]
  | x :: _ :: rest => x :: every_other rest
  end.

Definition col_map (f : forall A, list A -> list A) (c : column) : column :=
  match c with
  | Int64 xs => Int64 (f Z xs)
  | Float64 xs => Float64 (f float xs)
  end.

Definition take_rows (f : forall A, list A -> list A) (df : DataFrame) : DataFrame :=
  {| index := f Z (index df);
     columns := map (fun lc => (fst lc, col_map f (snd lc))) (columns df) |}.

(** [df[start::2]]: the rows at positions [start], [start+2], ... with their
    labels. *)
Definition step2 (start : nat) (df : DataFrame) : DataFrame :=
  take_rows (fun A xs => every_other (skipn start xs)) df.

(** [df.reset_index()]: the row labels become a first column, named [index],
    or [level_0] when a column [index] is there already (and refused when
    that name is taken too), and the rows are labelled afresh from 0. *)
Definition reset_index (df : DataFrame) : outcome DataFrame :=
  let name := if has_label "index" df then "level_0" else "index" in
  if has_label name df
  then Raise (ValueError (CannotInsert name))
  else Return {| index := range (nrows df);
                 columns := (name, Int64 (index df)) :: columns df |}.

(** [df[label]]: the column of that label, or the columns when several
    carry it. *)
Inductive selection :=
| Series (c : column)
| Frame (cs : list column).

Definition getitem (df : DataFrame) (label : string) : outcome selection :=
  match filter (fun lc => String.eqb (fst lc) label) (columns df) with
  | [] => Raise (KeyError label)
  | [lc] => Return (Series (snd lc))
  | lcs => Return (Frame (map snd lcs))
  end.

(** int64 to float64. *)
Definition float_of_Z (z : Z) : float :=
  if z <? 0 then PrimFloat.opp (PrimFloat.of_uint63 (Uint63.of_Z (- z)))
  else PrimFloat.of_uint63 (Uint63.of_Z z).

Definition to_float64 (c : column) : list float :=
  match c with
  | Float64 xs => xs
  | Int64 zs => map float_of_Z zs
  end.

(** Two values are one key of [unique]: equal numbers, or both not a number. *)
Definition same_key (a b : float) : bool :=
  PrimFloat.eqb a b || (PrimFloat.is_nan a && PrimFloat.is_nan b).

(** [Series.unique()]: the distinct values in order of first appearance. *)
Fixpoint unique_from (seen xs : list float) : list float :=
  match xs with
  | [] => []
  | x :: rest =>
      if existsb (same_key x) seen then unique_from seen rest
      else x :: unique_from (x :: seen) rest
  end.

Definition unique (xs : list float) : list float := unique_from [] xs.

(** [Series.max()] and [Series.min()]: values that are not a number are left
    out, and nothing left gives not-a-number. *)
Definition notna (xs : list float) : list float :=
  filter (fun x => negb (PrimFloat.is_nan x)) xs.

Definition series_max (xs : list float) : float :=
  match notna xs with
  | [] => nan
  | x :: rest => fold_left (fun acc y => if PrimFloat.leb y acc then acc else y) rest x
  end.

Definition series_min (xs : list float) : float :=
  match notna xs with
  | [] => nan
  | x :: rest => fold_left (fun acc y => if PrimFloat.leb acc y then acc else y) rest x
  end.

(** A boolean series as a row selector: its labels paired with its values. *)
Definition mask := list (Z * bool).

(** The selector aligned to the row labels of the table it selects from: a
    row label the selector does not have is refused. *)
Fixpoint align (m : mask) (idx : list Z) : outcome (list bool) :=
  match idx with
  | [] => Return []
  | l :: rest =>
      match find (fun lb => Z.eqb (fst lb) l) m with
      | None => Raise IndexingError
      | Some lb => let! bs := align m rest in Return (snd lb :: bs)
      end
  end.

Fixpoint select {A} (bs : list bool) (xs : list A) : list A :=
  match bs, xs with
  | b :: bs', x :: xs' => if b then x :: select bs' xs' else select bs' xs'
  | _, _ => []
  end.

(** [df.loc[m]] *)
Definition loc (df : DataFrame) (m : mask) : outcome DataFrame :=
  let! bs := align m (index df) in
  Return (take_rows (fun A xs => select bs xs) df).

(** [df.iloc[i]]: the entries of the row at position [i], column by column. *)
Inductive cell :=
| IntCell (z : Z)
| FloatCell (x : float).

Definition col_nth (c : column) (i : nat) : option cell :=
  match c with
  | Int64 xs => option_map IntCell (nth_error xs i)
  | Float64 xs => option_map FloatCell (nth_error xs i)
  end.

Definition iloc (df : DataFrame) (i : nat) : list (option cell) :=
  map (fun lc => col_nth (snd lc) i) (columns df).

End Pd.

(** ** The files, the simulator and the calls of control.py *)

(** The files of the working directory: the text at each path. *)
Definition files := string -> option string.

(** What a call returns to the optimiser: a number, or one number per column
    when several columns carry the label [Y]. *)
Inductive penalty_value :=
| Scalar (x : float)
| PerColumn (xs : list float).

(** The state a call runs in: the files, and the penalties printed so far. *)
Record world := mkWorld {
  disk : files;
  printed : list penalty_value
}.

Definition M (A : Type) : Type := world -> outcome A * world.

Definition ret {A} (a : A) : M A := fun w => (Return a, w).

Definition bind {A B} (m : M A) (k : A -> M B) : M B :=
  fun w =>
    match m w with
    | (Return a, w') => k a w'
    | (Raise e, w') => (Raise e, w')
    end.

Definition lift {A} (o : outcome A) : M A := fun w => (o, w).

Declare Scope world_scope.
Delimit Scope world_scope with world.
Notation "x <- m ;; k" := (bind m (fun x => k))
  (at level 61, m at next level, right associativity) : world_scope.
Notation "' pat <- m ;; k" := (bind m (fun x => match x with pat => k end))
  (at level 61, pat pattern, m at next level, right associativity) : world_scope.
Notation "m ;; k" := (bind m (fun _ => k))
  (at level 61, right associativity) : world_scope.

(** [open(path)] and reading it to the end. *)
Definition read_text (path : string) : M string :=
  fun w =>
    match disk w path with
    | Some text => (Return text, w)
    | None => (Raise (FileNotFoundError path), w)
    end.

Definition path_exists (path : string) : M bool :=
  fun w => (Return (match disk w path with Some _ => true | None => false end), w).

(** [os.remove]: the files of the model are regular files of a directory
    the caller may write to, so a path that is there can be removed; a path
    that is not there is the only failure. *)
Definition remove (path : string) : M unit :=
  fun w =>
    match disk w path with
    | Some _ =>
        (Return tt,
         {| disk := fun p => if String.eqb p path then None else disk w p;
            printed := printed w |})
    | None => (Raise (FileNotFoundError path), w)
    end.

Definition print (p : penalty_value) : M unit :=
  fun w => (Return tt, {| disk := disk w; printed := printed w ++ [p] |}).

(** The two requests [vmi_cost_function] sends to the simulator, with the
    arguments its command line is written from. *)
Inductive command :=
| Fastadj (pa0 : string) (electrodes : list (Z * float))
| Fly (rec out iob : string).

(** The simulator: an external program, known here only as a change of the
    files; its exit status is not looked at. *)
Class Simion := simion_run : command -> files -> files.

Definition endswith (suffix s : string) : bool :=
  let n := String.length s in
  let k := String.length suffix in
  Nat.leb k n && String.eqb (substring (n - k) k s) suffix.

Section Control.
Context {reader : FloatReader} {simion : Simion}.

Definition simion_command (c : command) : M unit :=
  fun w => (Return tt, {| disk := simion_run c (disk w); printed := printed w |}).

(** [fly]: an old output file is removed before the simulator writes. *)
Definition fly (workspace_filename rec_filename output_filename : string) : M unit :=
  (b <- path_exists (output_filename ++ ".txt") ;;
   (if b then remove (output_filename ++ ".txt") else ret tt) ;;
   simion_command (Fly (rec_filename ++ ".rec") (output_filename ++ ".txt")
                       (workspace_filename ++ ".iob")))%world.

(** [load_flight_data]: the header scan reads the file, [np.loadtxt] reads it
    again from line 12 on, the names become the column labels, and the rows at
    even and at odd positions become the two tables. *)
Definition load_flight_data (output_filename : string)
  : M (Pd.DataFrame * Pd.DataFrame) :=
  (text <- read_text (output_filename ++ ".txt") ;;
   let df_index := header_scan (Py.readlines text) in
   text' <- read_text (output_filename ++ ".txt") ;;
   flight_data <- lift (Np.loadtxt text' 12) ;;
   df <- lift (Pd.frame flight_data df_index) ;;
   initial_conditions <- lift (Pd.reset_index (Pd.step2 0 df)) ;;
   final_conditions <- lift (Pd.reset_index (Pd.step2 1 df)) ;;
   ret (initial_conditions, final_conditions))%world.

(** Addition of penalties: a number is added to every entry of a series. *)
Definition padd (p q : penalty_value) : penalty_value :=
  match p, q with
  | Scalar a, Scalar b => Scalar (a + b)
  | Scalar a, PerColumn bs => PerColumn (map (fun b => a + b)%float bs)
  | PerColumn xs, Scalar b => PerColumn (map (fun a => a + b)%float xs)
  | PerColumn xs, PerColumn bs =>
      PerColumn (map (fun ab => fst ab + snd ab)%float (combine xs bs))
  end.

(** [(y_pos.max() - y_pos.min())**2], the square as the rounded product
    [d * d]. The power of the library agrees with it wherever the product is
    exact, as for the spreads 0 and 2, and in sign; where the product is
    rounded the two can differ in the last place. *)
Definition spread_sq (y_pos : list float) : float :=
  let d := (Pd.series_max y_pos - Pd.series_min y_pos)%float in
  (d * d)%float.

(** The body of the loop over the energies: the rows of [df_res] picked by
    [df_ic['KE'] == energy], their [Y], and its squared spread. *)
Definition group_term (df_res : Pd.DataFrame) (ic_index : list Z)
    (ke : list float) (energy : float) : outcome penalty_value :=
  let m := combine ic_index (map (fun k => PrimFloat.eqb k energy) ke) in
  let! rows := Pd.loc df_res m in
  let! sel := Pd.getitem rows "Y" in
  Return match sel with
         | Pd.Series c => Scalar (spread_sq (Pd.to_float64 c))
         | Pd.Frame cs => PerColumn (map (fun c => spread_sq (Pd.to_float64 c)) cs)
         end.

Fixpoint grouping_loop (df_res : Pd.DataFrame) (ic_index : list Z)
    (ke : list float) (energies : list float) (penalty : penalty_value)
  : outcome penalty_value :=
  match energies with
  | [] => Return penalty
  | energy :: rest =>
      let! t := group_term df_res ic_index ke energy in
      grouping_loop df_res ic_index ke rest (padd penalty t)
  end.

(** Lines 112 to 116: the penalty after the loop over the energies. *)
Definition grouping_penalty (df_ic df_res : Pd.DataFrame) : outcome penalty_value :=
  let! sel := Pd.getitem df_ic "KE" in
  match sel with
  | Pd.Frame _ => Raise (AttributeError "unique")
  | Pd.Series c =>
      let ke := Pd.to_float64 c in
      grouping_loop df_res (Pd.index df_ic) ke (Pd.unique ke) (Scalar 0)
  end.

(** Lines 118 to 120: the loop over [range(len(voltages) - 1)]. *)
Definition monotonicity_loop (voltages : list float) (penalty : penalty_value)
  : penalty_value :=
  fold_left
    (fun p i =>
       if (nth i voltages nan <? nth (S i) voltages nan)%float
       then padd p (Scalar 500)
       else p)
    (seq 0 (List.length voltages - 1))
    penalty.

Definition getitem_list (voltages : list float) (i : nat) : outcome float :=
  match nth_error voltages i with
  | Some v => Return v
  | None => Raise IndexError
  end.

(** [rm *.tmp]: every file of the working directory with that ending goes;
    the pattern matches no name that starts with a dot and no path into
    another directory. *)
Definition rm_tmp : M unit :=
  fun w =>
    (Return tt,
     {| disk := fun p =>
                  if endswith ".tmp" p && negb (Py.startswith "." p)
                     && negb (Py.contains "/" p)
                  then None else disk w p;
        printed := printed w |}).

(** [vmi_cost_function] *)
Definition vmi_cost_function (voltages : list float)
    (workspace_filename rec_filename data_filename : string) : M penalty_value :=
  (v0 <- lift (getitem_list voltages 0) ;;
   v1 <- lift (getitem_list voltages 1) ;;
   simion_command (Fastadj (workspace_filename ++ ".pa0")
                     [(1, 4500%float); (2, v0); (3, v1);
                      (4, 0%float); (5, 0%float)]) ;;
   fly workspace_filename rec_filename data_filename ;;
   '(df_ic, df_res) <- load_flight_data data_filename ;;
   rm_tmp ;;
   penalty <- lift (grouping_penalty df_ic df_res) ;;
   let penalty := monotonicity_loop voltages penalty in
   print penalty ;;
   ret penalty)%world.

End Control.

(** ** The format of a results file *)

Section Format.
Context {reader : FloatReader}.

(** The tables [load_flight_data] makes of the text of a file. *)
Definition tables_of_text (text : string) : outcome (Pd.DataFrame * Pd.DataFrame) :=
  let df_index := header_scan (Py.readlines text) in
  let! flight_data := Np.loadtxt text 12 in
  let! df := Pd.frame flight_data df_index in
  let! initial_conditions := Pd.reset_index (Pd.step2 0 df) in
  let! final_conditions := Pd.reset_index (Pd.step2 1 df) in
  Return (initial_conditions, final_conditions).

(** The body rows of a file: the fields of every line with content from line
    offset 12 on. *)
Definition data_rows (text : string) : list (list string) :=
  filter (fun toks => negb (Nat.eqb (List.length toks) 0))
         (map Np.fields (skipn 12 (Py.readlines text))).

(** The fields of a row convert to these numbers. *)
Definition numbers (toks : list string) (row : list float) : Prop :=
  Forall2 (fun tok x => float_of_string tok = Some x) toks row.

(** A well-formed results file with the body [body]: every body row is a
    row of numbers, as many as the header has names; there is a first ion;
    and no name of the header is the one [reset_index] gives its column. *)
Record well_formed (text : string) (body : list (list float)) : Prop := {
  wf_rows : Forall2 numbers (data_rows text) body;
  wf_width : Forall (fun row => List.length row
                                = List.length (header_scan (Py.readlines text))) body;
  wf_first : body <> [];
  wf_names : ~ In "index" (header_scan (Py.readlines text))
}.

(** A field of a body row that does not convert. *)
Definition malformed_row (toks : list string) : Prop :=
  Exists (fun tok => float_of_string tok = None) toks.

(** What [np.loadtxt] raises over the rows: a field that does not convert, or
    a row of another width. *)
Definition loadtxt_error (e : exn) : Prop :=
  e = ValueError WrongNumberOfColumns
  \/ exists tok, float_of_string tok = None /\ e = ValueError (CouldNotConvert tok).

End Format.

(** The number of adjacent pairs of a voltage ladder that go up. *)
Fixpoint count_increasing (voltages : list float) : nat :=
  match voltages with
  | v :: rest =>
      match rest with
      | w :: _ => (if (v <? w)%float then 1 else 0) + count_increasing rest
      | [] => 0
      end
  | [] => 0
  end%nat.

(** Rows of equal initial energy have equal final [Y]. *)
Definition zero_spread (ke ys : list float) : bool :=
  forallb (fun a => forallb (fun b =>
              negb (PrimFloat.eqb (fst a) (fst b)) || PrimFloat.eqb (snd a) (snd b))
             (combine ke ys))
          (combine ke ys).

(** The final [Y] of the rows whose initial energy equals [energy]. *)
Definition y_of_group (ke ys : list float) (energy : float) : list float :=
  Pd.select (map (fun k => PrimFloat.eqb k energy) ke) ys.

(** The squared spreads of the groups, summed in the order of [unique]. *)
Definition spread_sum (ke ys : list float) : float :=
  fold_left (fun acc energy => (acc + spread_sq (y_of_group ke ys energy))%float)
            (Pd.unique ke) 0%float.

(** [ke] is the column [KE] of the initial table and [ys] the column [Y] of
    the final table, row for row, under the row labels [load_flight_data]
    gives. *)
Definition paired (df_ic df_res : Pd.DataFrame) (ke ys : list float) : Prop :=
  Pd.index df_ic = Pd.range (List.length ke)
  /\ Pd.index df_res = Pd.range (List.length ke)
  /\ List.length ys = List.length ke
  /\ Pd.getitem df_ic "KE" = Return (Pd.Series (Pd.Float64 ke))
  /\ Pd.getitem df_res "Y" = Return (Pd.Series (Pd.Float64 ys)).

(** Two groups of two ions: initial energies [a] and [b], final [Y] of 1 and 1
    in the first group and of 2 and 4 in the second, in any order of the
    rows. *)
Definition two_groups (ke ys : list float) : Prop :=
  exists a b : float,
    PrimFloat.eqb a a = true /\ PrimFloat.eqb b b = true
    /\ PrimFloat.eqb a b = false
    /\ Permutation (combine ke ys) [(a, 1); (a, 1); (b, 2); (b, 4)]%float.

(** Two floats that compare equal: two zeros, the same infinity, or the same
    finite number. *)
Definition sf_same (x y : spec_float) : Prop :=
  match x, y with
  | S754_zero _, S754_zero _ => True
  | S754_infinity s, S754_infinity s' => s = s'
  | S754_finite s m e, S754_finite s' m' e' => s = s' /\ m = m' /\ e = e'
  | _, _ => False
  end.

(** ** A reader, a simulator and files for the examples *)

Module Example.

Definition digit (c : ascii) : option Z :=
  let n := nat_of_ascii c in
  if Nat.leb 48 n && Nat.leb n 57 then Some (Z.of_nat (n - 48)) else None.

Fixpoint read_digits (s : string) (acc : Z) (count : nat) : Z * nat * string :=
  match s with
  | EmptyString => (acc, count, EmptyString)
  | String c rest =>
      match digit c with
      | Some d => read_digits rest (10 * acc + d) (S count)
      | None => (acc, count, s)
      end
  end.

(** [m / 10^k], exact operands: at most fifteen digits. *)
Definition scaled (neg : bool) (m : Z) (digits k : nat) : option float :=
  if Nat.eqb digits 0 || Nat.ltb 15 digits then None
  else
    let x := (Pd.float_of_Z m / Pd.float_of_Z (10 ^ Z.of_nat k))%float in
    Some (if neg then (- x)%float else x).

Definition unsigned (neg : bool) (s : string) : option float :=
  if String.eqb s "inf" then Some (if neg then neg_infinity else infinity)
  else if String.eqb s "nan" then Some nan
  else
    let '(ip, n1, s2) := read_digits s 0 0 in
    match s2 with
    | EmptyString => scaled neg ip n1 0
    | String c s3 =>
        if Ascii.eqb c "."
        then let '(m, n2, s4) := read_digits s3 ip 0 in
             match s4 with
             | EmptyString => scaled neg m (n1 + n2) n2
             | _ => None
             end
        else None
    end.

(** Plain decimal literals of at most fifteen digits, [inf] and [nan], with
    an optional sign: the quotient of the two exact operands is the nearest
    float64, which is what every conversion routine gives for them. *)
Definition decimal : FloatReader :=
  fun s =>
    match s with
    | String c rest =>
        if Ascii.eqb c "-" then unsigned true rest
        else if Ascii.eqb c "+" then unsigned false rest
        else unsigned false s
    | EmptyString => None
    end.

Definition line (s : string) : string := s ++ Py.chr Py.LF.

Definition header (names : list string) : string :=
  line (String.concat "," (map Py.quoted names)).

(** A results file: a banner, the header on line 10 of the twelve lines that
    come before the numbers, and the rows. *)
Definition artifact (names : list string) (rows : list string) : string :=
  String.concat EmptyString
    ([line "Begin Fly"] ++ repeat (line EmptyString) 9
       ++ [header names; line EmptyString] ++ map line rows).

(** The same file without its header line. *)
Definition headless (rows : list string) : string :=
  String.concat EmptyString
    ([line "Begin Fly"] ++ repeat (line EmptyString) 11 ++ map line rows).

Definition on_disk (path text : string) : world :=
  {| disk := fun p => if String.eqb p path then Some text else None;
     printed := [] |}.

(** A simulator that writes [text] to the output of every fly request and
    leaves the files alone otherwise. *)
Definition writes (text : string) : Simion :=
  fun c d =>
    match c with
    | Fly _ out _ => fun p => if String.eqb p out then Some text else d p
    | Fastadj _ _ => d
    end.

Definition load (text : string) : outcome (Pd.DataFrame * Pd.DataFrame) :=
  fst (@load_flight_data decimal "data" (on_disk "data.txt" text)).

Definition four_rows : string :=
  artifact ["Ion N"; "KE"; "Y"]
    ["1,10.0,0.5"; "1,9.5,1.0"; "2,20.0,0.25"; "2,19.0,2.0"].

Definition three_rows : string :=
  artifact ["Ion N"; "KE"; "Y"]
    ["1,10.0,0.5"; "1,9.5,1.0"; "2,20.0,0.25"].

Definition four_rows_body : list (list float) :=
  [[1; 10; 0.5]; [1; 9.5; 1]; [2; 20; 0.25]; [2; 19; 2]]%float.

Definition three_rows_body : list (list float) :=
  [[1; 10; 0.5]; [1; 9.5; 1]; [2; 20; 0.25]]%float.

Definition no_header : string :=
  headless ["1,10.0,0.5"; "1,9.5,1.0"].

Definition bad_token : string :=
  artifact ["Ion N"; "KE"; "Y"] ["1,10.0,0.5"; "1,abc,1.0"].

(** Two ions of one initial energy that both end at an infinite [Y]. *)
Definition infinite_y : string :=
  artifact ["Ion N"; "KE"; "Y"; "X"]
    ["1,10.0,0.0,0.0"; "1,9.0,inf,50.0"; "2,10.0,0.5,0.0"; "2,9.0,inf,50.0"].

(** Four ions in two energy groups, each group focused to one [Y]. *)
Definition focused : string :=
  artifact ["Ion N"; "KE"; "Y"; "X"]
    ["1,10.0,0.0,0.0"; "1,9.0,1.5,50.0"; "2,20.0,0.5,0.0"; "2,19.0,-2.0,50.0";
     "3,10.0,0.0,0.0"; "3,9.0,1.5,50.0"; "4,20.0,0.5,0.0"; "4,19.0,-2.0,50.0"].

(** Four ions in two energy groups: final [Y] of 1.0 and 1.0 in the group of
    energy 10, of 4.0 and 2.0 in the group of energy 20. *)
Definition two_groups_file : string :=
  artifact ["Ion N"; "KE"; "Y"; "X"]
    ["1,10.0,0.0,0.0"; "1,9.0,1.0,50.0"; "2,20.0,0.5,0.0"; "2,19.0,4.0,50.0";
     "3,10.0,0.0,0.0"; "3,9.0,1.0,50.0"; "4,20.0,0.5,0.0"; "4,19.0,2.0,50.0"].

Definition empty_world : world :=
  {| disk := fun _ => None; printed := [] |}.

(** The two tables of a file that loads. *)
Definition loaded (text : string) : Pd.DataFrame * Pd.DataFrame :=
  match load text with
  | Return tables => tables
  | Raise _ => (Pd.mkDataFrame [] [], Pd.mkDataFrame [] [])
  end.

End Example.


(** What [load_flight_data] returns for a file of at least two body rows:
    the rows from [start] on in steps of two, under the names found, behind
    the column of their positions. *)
Definition expected_table (names : list string) (body : list (list float))
    (start : nat) : Pd.DataFrame :=
  let rows := Pd.every_other (skipn start body) in
  {| Pd.index := Pd.range (List.length rows);
     Pd.columns :=
       ("index", Pd.Int64 (Pd.every_other (skipn start (Pd.range (List.length body)))))
         :: combine names (map (Pd.column_of rows) (seq 0 (List.length names))) |}.

(** ** Signs, stale files and the files after the fly run *)

(** A float that is not below zero: no negative number and no negative
    infinity; a zero of either sign and not-a-number are not below zero. *)
Definition sf_not_negative (x : spec_float) : bool :=
  match x with
  | S754_infinity true | S754_finite true _ _ => false
  | _ => true
  end.

Definition penalty_not_negative (p : penalty_value) : bool :=
  match p with
  | Scalar x => negb (x <? 0)%float
  | PerColumn xs => forallb (fun x => negb (x <? 0)%float) xs
  end.

(** [if os.path.exists(path): os.remove(path)] on the files. *)
Definition cleared (path : string) (d : files) : files :=
  match d path with
  | Some _ => fun p => if String.eqb p path then None else d p
  | None => d
  end.

Section AfterFly.
Context {simion : Simion}.

(** The files after the fast adjustment and the fly run of
    [vmi_cost_function]. *)
Definition results_disk (v0 v1 : float)
    (workspace_filename rec_filename data_filename : string) (d : files) : files :=
  simion_run (Fly (rec_filename ++ ".rec") (data_filename ++ ".txt")
                  (workspace_filename ++ ".iob"))
    (cleared (data_filename ++ ".txt")
       (simion_run (Fastadj (workspace_filename ++ ".pa0")
                      [(1, 4500%float); (2, v0); (3, v1);
                       (4, 0%float); (5, 0%float)])
                   d)).

End AfterFly.

(** ** More files and a simulator for the examples *)

Module Sample.

(** A simulator that leaves the files as they are. *)
Definition idle : Simion := fun _ d => d.

(** A header whose last name is KE. *)
Definition ke_last : string :=
  Example.artifact ["Ion N"; "Y"; "KE"]
    ["1,0.5,10.0"; "1,1.0,9.5"; "2,0.25,20.0"; "2,2.0,19.0"].

Definition ke_last_body : list (list float) :=
  [[1; 0.5; 10]; [1; 1; 9.5]; [2; 0.25; 20]; [2; 2; 19]]%float.


(** The file of four rows with another banner, a comment line and an empty
    line between its rows, and a comment behind a row. *)
Definition noted : string :=
  String.concat EmptyString
    ([Example.line "Another banner"; Example.line "# of the simulator"]
       ++ repeat (Example.line EmptyString) 8
       ++ [Example.header ["Ion N"; "KE"; "Y"]; Example.line EmptyString]
       ++ map Example.line
            ["1,10.0,0.5"; "# first ion"; "1,9.5,1.0# final"; EmptyString;
             "2,20.0,0.25"; "2,19.0,2.0"]).

(** A third row with a number less than the others. *)
Definition ragged : string :=
  Example.artifact ["Ion N"; "KE"; "Y"]
    ["1,10.0,0.5"; "1,9.5,1.0"; "2,20.0"; "2,19.0,2.0"].

(** Two names over rows of three numbers. *)
Definition narrow_header : string :=
  Example.artifact ["Ion N"; "KE"]
    ["1,10.0,0.5"; "1,9.5,1.0"].

Definition narrow_header_body : list (list float) :=
  [[1; 10; 0.5]; [1; 9.5; 1]]%float.

Definition one_row : string :=
  Example.artifact ["Ion N"; "KE"; "Y"] ["1,10.0,0.5"].

(** A header with a column named index. *)
Definition index_named : string :=
  Example.artifact ["Ion N"; "index"; "KE"]
    ["1,7,10.0"; "1,7,9.5"; "2,8,20.0"; "2,8,19.0"].

Definition index_named_body : list (list float) :=
  [[1; 7; 10]; [1; 7; 9.5]; [2; 8; 20]; [2; 8; 19]]%float.

(** The four ions of two energy groups under the header of the names Ion N,
    KE and Y: final [Y] of 1.0 and 1.0 in the group of energy 10, of 4.0 and
    2.0 in the group of energy 20, and Y the last name of the header line. *)
Definition two_groups_y_last : string :=
  Example.artifact ["Ion N"; "KE"; "Y"]
    ["1,10.0,0.0"; "1,9.0,1.0"; "2,20.0,0.5"; "2,19.0,4.0";
     "3,10.0,0.0"; "3,9.0,1.0"; "4,20.0,0.5"; "4,19.0,2.0"].

(** The numbers of [Example.two_groups_file]. *)
Definition two_groups_body : list (list float) :=
  [[1; 10; 0; 0]; [1; 9; 1; 50]; [2; 20; 0.5; 0]; [2; 19; 4; 50];
   [3; 10; 0; 0]; [3; 9; 1; 50]; [4; 20; 0.5; 0]; [4; 19; 2; 50]]%float.

(** Three body rows: the second ion has an initial row and no final row. *)
Definition unpaired : string :=
  Example.artifact ["Ion N"; "KE"; "Y"; "X"]
    ["1,10.0,0.0,0.0"; "1,9.0,1.5,50.0"; "2,20.0,0.5,0.0"].

(** Two ions whose initial energy is not a number, with equal final [Y]. *)
Definition nan_energy : string :=
  Example.artifact ["Ion N"; "KE"; "Y"; "X"]
    ["1,nan,0.0,0.0"; "1,9.0,1.5,50.0"; "2,nan,0.5,0.0"; "2,9.0,1.5,50.0"].

End Sample.

(** * Properties *)

(** ** Lists in steps of two *)

Lemma pair_induction {A} (P : list A -> Prop) :
  P [] -> (forall x, P [x]) -> (forall x y l, P l -> P (x :: y :: l)) ->
  forall l, P l.
Proof.
  intros H0 H1 H2.
  fix IH 1.
  intros [|x [|y l]]; [exact H0 | apply H1 | apply H2, IH].
Qed.

Lemma every_other_map {A B} (f : A -> B) (xs : list A) :
  Pd.every_other (map f xs) = map f (Pd.every_other xs).
Proof.
  induction xs as [| x | x y l IH] using pair_induction; simpl; congruence.
Qed.

Lemma every_other_nth_error {A} (xs : list A) (i : nat) :
  nth_error (Pd.every_other xs) i = nth_error xs (2 * i).
Proof.
  revert i.
  induction xs as [| x | x y l IH] using pair_induction; intros i.
  - simpl. now rewrite !nth_error_nil.
  - destruct i as [|i]; [reflexivity|].
    replace (2 * S i)%nat with (S (S (2 * i))) by lia.
    simpl. now rewrite !nth_error_nil.
  - destruct i as [|i]; [reflexivity|].
    replace (2 * S i)%nat with (S (S (2 * i))) by lia.
    simpl. apply IH.
Qed.

Lemma every_other_length_even {A} (xs : list A) (n : nat) :
  List.length xs = (2 * n)%nat -> List.length (Pd.every_other xs) = n.
Proof.
  revert n.
  induction xs as [| x | x y l IH] using pair_induction; intros n H; simpl in *.
  - lia.
  - lia.
  - destruct n as [|n]; [lia|]. f_equal. apply IH. lia.
Qed.

Lemma every_other_length_odd {A} (xs : list A) (n : nat) :
  List.length xs = S (2 * n) -> List.length (Pd.every_other xs) = S n.
Proof.
  revert n.
  induction xs as [| x | x y l IH] using pair_induction; intros n H; simpl in *.
  - lia.
  - f_equal. lia.
  - destruct n as [|n]; [lia|]. f_equal. apply IH. lia.
Qed.

Lemma range_length (n : nat) : List.length (Pd.range n) = n.
Proof. unfold Pd.range. now rewrite length_map, length_seq. Qed.

(** ** The header scan *)

Lemma setitem_middle {A} (pre post : list A) (x v : A) :
  Py.setitem (pre ++ x :: post)%list (List.length pre) v = (pre ++ v :: post)%list.
Proof. induction pre; simpl; congruence. Qed.

Lemma nth_error_middle {A} (pre post : list A) (x : A) :
  nth_error (pre ++ x :: post)%list (List.length pre) = Some x.
Proof. induction pre; simpl; auto. Qed.

Lemma strip_loop_map (post pre : list string) :
  strip_loop (List.length post) (List.length pre) (pre ++ post)%list
  = (pre ++ map (Py.slice 1 (-1)) post)%list.
Proof.
  revert pre.
  induction post as [|idx post IH]; intros pre; simpl.
  - reflexivity.
  - rewrite nth_error_middle.
    assert (E : Py.setitem
                  (if Py.contains (Py.chr Py.LF) idx
                   then Py.setitem (pre ++ idx :: post)%list (List.length pre)
                          (Py.slice 0 (-1) idx)
                   else (pre ++ idx :: post)%list)
                  (List.length pre) (Py.slice 1 (-1) idx)
                = ((pre ++ [Py.slice 1 (-1) idx]) ++ post)%list).
    { destruct (Py.contains (Py.chr Py.LF) idx);
        rewrite ?setitem_middle, <- app_assoc; reflexivity. }
    rewrite E.
    replace (S (List.length pre)) with (List.length (pre ++ [Py.slice 1 (-1) idx])%list)
      by (rewrite length_app; simpl; lia).
    rewrite IH, <- app_assoc. reflexivity.
Qed.

(** The first assignment of the loop body is overwritten by the second:
    every field loses its first and its last character, whatever it holds. *)
Lemma strip_fields_map (df_index : list string) :
  strip_fields df_index = map (Py.slice 1 (-1)) df_index.
Proof. exact (strip_loop_map df_index []). Qed.

Lemma length_append (s t : string) :
  String.length (s ++ t) = (String.length s + String.length t)%nat.
Proof. induction s as [|c s IH]; cbn; [reflexivity|]. now rewrite IH. Qed.

Lemma substring_prefix (s t : string) :
  substring 0 (String.length s) (s ++ t) = s.
Proof. induction s as [|c s IH]; cbn; [now destruct t|]. now rewrite IH. Qed.

(** Without its first and last character a string between two characters is
    the string. *)
Lemma slice_inner (c d : ascii) (s : string) :
  Py.slice 1 (-1) (String c (s ++ Py.chr d)) = s.
Proof.
  unfold Py.slice.
  assert (L : Z.of_nat (String.length (String c (s ++ Py.chr d)))
              = Z.of_nat (String.length s) + 2).
  { cbn [String.length]. rewrite length_append. cbn [Py.chr String.length]. lia. }
  rewrite L.
  assert (A : Py.bound (Z.of_nat (String.length s) + 2) 1 = 1%nat).
  { unfold Py.bound. change (1 <? 0) with false. cbv iota. lia. }
  assert (B : Py.bound (Z.of_nat (String.length s) + 2) (-1)
              = S (String.length s)).
  { unfold Py.bound. change (-1 <? 0) with true. cbv iota. lia. }
  rewrite A, B.
  replace (S (String.length s) - 1)%nat with (String.length s) by lia.
  cbn [substring]. apply substring_prefix.
Qed.

Lemma slice_quoted (name : string) : Py.slice 1 (-1) (Py.quoted name) = name.
Proof. apply slice_inner. Qed.

(** The last field of the header line: the terminator is the character that
    goes, and the closing quote stays. *)
Lemma slice_quoted_terminated (name : string) :
  Py.slice 1 (-1) (Py.quoted name ++ Py.chr Py.LF) = name ++ Py.chr Py.DQ.
Proof. unfold Py.quoted. cbn [append]. apply slice_inner. Qed.

Lemma header_scan_stops (pre post : list string) (line : string) :
  forallb (fun l => negb (Py.contains marker l)) pre = true ->
  Py.contains marker line = true ->
  header_scan (pre ++ line :: post)%list = strip_fields (Py.split Py.COMMA line).
Proof.
  intros Hpre Hline.
  induction pre as [|l pre IH]; simpl in *.
  - now rewrite Hline.
  - apply andb_prop in Hpre as [Hl Hpre].
    apply negb_true_iff in Hl. rewrite Hl. auto.
Qed.

Lemma header_scan_none (lines : list string) :
  forallb (fun l => negb (Py.contains marker l)) lines = true ->
  header_scan lines = [].
Proof.
  induction lines as [|l lines IH]; simpl; intros H.
  - reflexivity.
  - apply andb_prop in H as [Hl H].
    apply negb_true_iff in Hl. rewrite Hl. auto.
Qed.

(** ** Reading the numbers and building the tables *)

Lemma every_other_length {A} (xs : list A) :
  List.length (Pd.every_other xs) = Nat.div2 (S (List.length xs)).
Proof.
  induction xs as [| x | x y l IH] using pair_induction; simpl in *; auto.
Qed.

Lemma map_combine_snd {A B C} (f : B -> C) (xs : list A) (ys : list B) :
  map (fun p => (fst p, f (snd p))) (combine xs ys) = combine xs (map f ys).
Proof.
  revert ys. induction xs as [|x xs IH]; intros [|y ys]; simpl; auto.
  now rewrite IH.
Qed.

Lemma map_fst_combine {A B} (xs : list A) (ys : list B) :
  List.length xs = List.length ys -> map fst (combine xs ys) = xs.
Proof.
  revert ys. induction xs as [|x xs IH]; intros [|y ys]; simpl; intros H;
    try discriminate; auto.
  f_equal. apply IH. lia.
Qed.

Lemma singleton_rows {A} (rows : list (list A)) :
  Forall (fun r => List.length r = 1%nat) rows ->
  map (fun x => [x]) (List.concat rows) = rows.
Proof.
  induction 1 as [|r rows Hr _ IH]; simpl; [reflexivity|].
  destruct r as [|x [|y r]]; try discriminate. simpl. now rewrite IH.
Qed.

Lemma row_of_columns (row : list float) :
  map (fun j => nth j row nan) (seq 0 (List.length row)) = row.
Proof.
  induction row as [|x row IH]; simpl; [reflexivity|].
  f_equal. rewrite <- seq_shift, map_map. exact IH.
Qed.

Section Loading.
Context {reader : FloatReader}.

Lemma convert_numbers (toks : list string) (row : list float) :
  numbers toks row -> Np.convert toks = Return row.
Proof.
  induction 1 as [|tok x toks row Hx _ IH]; simpl; [reflexivity|].
  unfold float_of_string in *. now rewrite Hx, IH.
Qed.

Lemma read_rows_numbers (lines : list string) :
  forall (body : list (list float)) (c : nat) (ncols : option nat),
    Forall2 numbers
      (filter (fun toks => negb (Nat.eqb (List.length toks) 0)) (map Np.fields lines))
      body ->
    Forall (fun row => List.length row = c) body ->
    ncols = None \/ ncols = Some c ->
    Np.read_rows ncols lines = Return body.
Proof.
  induction lines as [|line lines IH]; intros body c ncols Hrows Hwidth Hc;
    cbn [Np.read_rows]; simpl in Hrows.
  - inversion Hrows. reflexivity.
  - destruct (Np.fields line) as [|t ts] eqn:F; simpl in Hrows.
    + eauto.
    + inversion Hrows as [|toks row rest body' Hrow Hrest]; subst.
      inversion Hwidth as [|? ? Hlen Hwidth']; subst.
      pose proof (Forall2_length Hrow) as L.
      rewrite (convert_numbers _ _ Hrow).
      assert (E : Np.read_rows (Some (List.length (t :: ts))) lines = Return body')
        by (apply (IH body' (List.length row)); auto; right; now rewrite L).
      rewrite E.
      destruct Hc as [-> | ->]; [reflexivity|].
      rewrite L, Nat.eqb_refl. reflexivity.
Qed.

Lemma frame_squeeze (body : list (list float)) (names : list string) (c : nat) :
  (2 <= List.length body)%nat ->
  Forall (fun row => List.length row = c) body ->
  (1 <= c)%nat ->
  List.length names = c ->
  Pd.frame (Np.squeeze body) names
  = Return {| Pd.index := Pd.range (List.length body);
              Pd.columns := combine names (map (Pd.column_of body) (seq 0 c)) |}.
Proof.
  intros Hlen Hwidth Hc Hnames. subst c.
  destruct body as [|r1 [|r2 rest]]; simpl in Hlen; try lia.
  pose proof (Forall_inv Hwidth) as H1. simpl in H1.
  destruct r1 as [|x [|y r1]]; simpl in H1; try lia.
  - rewrite <- H1 in *. cbn [Np.squeeze Pd.frame]. unfold Pd.of_rows.
    rewrite (singleton_rows _ Hwidth), <- H1. reflexivity.
  - cbn [Np.squeeze Pd.frame hd]. unfold Pd.of_rows.
    change (List.length (x :: y :: r1)) with (S (S (List.length r1))).
    rewrite H1, Nat.eqb_refl. reflexivity.
Qed.

Lemma step2_columns (names : list string) (body : list (list float))
    (c N start : nat) :
  Pd.step2 start
    {| Pd.index := Pd.range N;
       Pd.columns := combine names (map (Pd.column_of body) (seq 0 c)) |}
  = {| Pd.index := Pd.every_other (skipn start (Pd.range N));
       Pd.columns :=
         combine names
           (map (Pd.column_of (Pd.every_other (skipn start body))) (seq 0 c)) |}.
Proof.
  unfold Pd.step2, Pd.take_rows. cbn [Pd.index Pd.columns]. f_equal.
  rewrite map_combine_snd, map_map. f_equal.
  apply map_ext. intros j. unfold Pd.column_of, Pd.col_map.
  now rewrite skipn_map, every_other_map.
Qed.

Lemma has_label_false (l : string) (df : Pd.DataFrame) :
  ~ In l (Pd.labels df) -> Pd.has_label l df = false.
Proof.
  unfold Pd.has_label. intros H.
  destruct (existsb (String.eqb l) (Pd.labels df)) eqn:E; [|reflexivity].
  apply existsb_exists in E as (l' & Hin & Heq).
  apply String.eqb_eq in Heq. now subst.
Qed.

Lemma reset_index_fresh (df : Pd.DataFrame) :
  ~ In "index" (Pd.labels df) ->
  Pd.reset_index df
  = Return {| Pd.index := Pd.range (Pd.nrows df);
              Pd.columns := ("index", Pd.Int64 (Pd.index df)) :: Pd.columns df |}.
Proof.
  intros H. unfold Pd.reset_index. now rewrite !(has_label_false _ _ H).
Qed.

Lemma data_rows_nonempty (text : string) (body : list (list float)) :
  Forall2 numbers (data_rows text) body ->
  Forall (fun row => (1 <= List.length row)%nat) body.
Proof.
  unfold data_rows.
  set (rows := filter _ _).
  assert (Hne : Forall (fun toks => (1 <= List.length toks)%nat) rows).
  { apply Forall_forall. intros toks Hin. apply filter_In in Hin as [_ Hin].
    destruct toks; [discriminate | simpl; lia]. }
  clearbody rows. intros H.
  induction H as [|toks row rows body Hrow _ IH]; constructor.
  - apply Forall_inv in Hne. now rewrite <- (Forall2_length Hrow).
  - apply IH. now apply Forall_inv_tail in Hne.
Qed.

(** The tables of a well-formed file of at least two body rows. *)
Lemma tables_of_well_formed (text : string) (body : list (list float)) :
  well_formed text body ->
  (2 <= List.length body)%nat ->
  tables_of_text text
  = Return (expected_table (header_scan (Py.readlines text)) body 0,
            expected_table (header_scan (Py.readlines text)) body 1).
Proof.
  intros [Hrows Hwidth Hfirst Hnames] Hlen.
  set (names := header_scan (Py.readlines text)) in *.
  assert (Hc : (1 <= List.length names)%nat).
  { pose proof (data_rows_nonempty _ _ Hrows) as Hne.
    destruct body as [|row body]; [contradiction|].
    apply Forall_inv in Hne, Hwidth. lia. }
  unfold tables_of_text, Np.loadtxt. fold names.
  rewrite (read_rows_numbers _ body (List.length names) None Hrows Hwidth (or_introl eq_refl)).
  cbn [obind].
  rewrite (frame_squeeze body names (List.length names) Hlen Hwidth Hc eq_refl).
  cbn [obind]. rewrite !step2_columns.
  assert (Hlab : forall start,
            Pd.labels
              {| Pd.index := Pd.every_other (skipn start (Pd.range (List.length body)));
                 Pd.columns :=
                   combine names
                     (map (Pd.column_of (Pd.every_other (skipn start body)))
                        (seq 0 (List.length names))) |} = names).
  { intros start. unfold Pd.labels. cbn [Pd.columns].
    apply map_fst_combine. now rewrite length_map, length_seq. }
  rewrite !reset_index_fresh by (rewrite Hlab; exact Hnames).
  cbn [obind]. unfold expected_table, Pd.nrows. cbn [Pd.index Pd.columns].
  rewrite !every_other_length, !length_skipn, range_length. reflexivity.
Qed.

(** [load_flight_data] reads the file and changes nothing. *)
Lemma load_flight_data_spec (output_filename : string) (w : world) :
  load_flight_data output_filename w
  = (match disk w (output_filename ++ ".txt") with
     | Some text => tables_of_text text
     | None => Raise (FileNotFoundError (output_filename ++ ".txt"))
     end, w).
Proof.
  unfold load_flight_data, bind, read_text, lift, ret, tables_of_text.
  destruct (disk w (output_filename ++ ".txt")) as [text|] eqn:E; [|reflexivity].
  cbv beta iota. rewrite E.
  destruct (Np.loadtxt text 12) as [flight_data|e]; [|reflexivity].
  cbn [obind].
  destruct (Pd.frame flight_data _) as [df|e]; [|reflexivity].
  cbn [obind].
  destruct (Pd.reset_index (Pd.step2 0 df)) as [ic|e]; [|reflexivity].
  cbn [obind].
  destruct (Pd.reset_index (Pd.step2 1 df)) as [fc|e]; reflexivity.
Qed.

End Loading.


(** ** The two tables of a well-formed file *)

Lemma every_other_range (n a : nat) :
  Pd.every_other (map Z.of_nat (seq a (2 * n)))
  = map (fun i => Z.of_nat (a + 2 * i)) (seq 0 n)
  /\ Pd.every_other (map Z.of_nat (seq a (S (2 * n))))
     = map (fun i => Z.of_nat (a + 2 * i)) (seq 0 (S n)).
Proof.
  revert a. induction n as [|n IH]; intros a.
  - simpl. now rewrite Nat.add_0_r.
  - replace (2 * S n)%nat with (S (S (2 * n))) by lia.
    destruct (IH (S (S a))) as [IHe IHo].
    assert (E : forall m, map (fun i => Z.of_nat (a + 2 * i)) (seq 0 (S m))
                = Z.of_nat a :: map (fun i => Z.of_nat (S (S a) + 2 * i)) (seq 0 m)).
    { intros m. cbn [seq map]. rewrite Nat.add_0_r. f_equal.
      rewrite <- seq_shift, map_map. apply map_ext. intros i. f_equal. lia. }
    split.
    + cbn [seq map Pd.every_other]. rewrite IHe. symmetry. apply E.
    + rewrite E. 
      change (seq a (S (S (S (2 * n))))) with (a :: S a :: seq (S (S a)) (S (2 * n))).
      cbn [map Pd.every_other]. now rewrite IHo.
Qed.

Lemma map_snd_combine {A B} (xs : list A) (ys : list B) :
  List.length xs = List.length ys -> map snd (combine xs ys) = ys.
Proof.
  revert ys. induction xs as [|x xs IH]; intros [|y ys]; simpl; intros H;
    try discriminate; auto.
  f_equal. apply IH. lia.
Qed.

Lemma expected_table_nrows (names : list string) (body : list (list float))
    (start : nat) :
  Pd.nrows (expected_table names body start)
  = List.length (Pd.every_other (skipn start body)).
Proof. unfold Pd.nrows, expected_table. cbn [Pd.index]. apply range_length. Qed.

Lemma expected_table_row (names : list string) (body : list (list float))
    (start i : nat) (row : list float) :
  nth_error body (start + 2 * i) = Some row ->
  List.length row = List.length names ->
  tl (Pd.iloc (expected_table names body start) i)
  = map (fun x => Some (Pd.FloatCell x)) row.
Proof.
  intros Hrow Hlen.
  unfold Pd.iloc, expected_table. cbn [Pd.columns map tl].
  rewrite <- (map_map snd (fun c => Pd.col_nth c i)).
  rewrite map_snd_combine by now rewrite length_map, length_seq.
  rewrite map_map. rewrite <- (row_of_columns row) at 1.
  rewrite map_map, Hlen. apply map_ext. intros j.
  unfold Pd.column_of, Pd.col_nth.
  rewrite nth_error_map, every_other_nth_error, nth_error_skipn, Hrow.
  reflexivity.
Qed.

Lemma expected_table_labels (names : list string) (body : list (list float))
    (start : nat) :
  Pd.labels (expected_table names body start) = "index" :: names.
Proof.
  unfold Pd.labels, expected_table. cbn [Pd.columns map fst]. f_equal.
  apply map_fst_combine. now rewrite length_map, length_seq.
Qed.

Section Claims.
Context {reader : FloatReader}.

(** C9. [load_flight_data] has no effect besides reading: whatever the file
    holds, and whether the call returns or raises, the state after the call
    is the state before it, so the file is neither changed nor removed and
    nothing is printed. *)
Theorem load_flight_data_changes_nothing (output_filename : string) (w : world) :
  snd (load_flight_data output_filename w) = w.
Proof. now rewrite load_flight_data_spec. Qed.

Lemma well_formed_row (text : string) (body : list (list float)) (k : nat) :
  well_formed text body ->
  (k < List.length body)%nat ->
  exists row, nth_error body k = Some row
              /\ nth k body [] = row
              /\ List.length row = List.length (header_scan (Py.readlines text)).
Proof.
  intros Hwf Hk.
  destruct (nth_error body k) as [row|] eqn:E.
  - exists row. repeat split.
    + now apply nth_error_nth.
    + pose proof (wf_width _ _ Hwf) as Hw.
      rewrite Forall_forall in Hw. apply Hw. eapply nth_error_In; eauto.
  - apply nth_error_None in E. lia.
Qed.

(** C3. A well-formed file of [2n] body rows, read from line offset 12, gives
    two tables of exactly [n] rows each; behind the column of positions, row
    [i] of the initial table is body row [2i] and row [i] of the final table
    is body row [2i+1]. *)
Theorem load_flight_data_pairs_rows (output_filename text : string) (w : world)
    (body : list (list float)) (n : nat) :
  disk w (output_filename ++ ".txt") = Some text ->
  well_formed text body ->
  List.length body = (2 * n)%nat ->
  exists initial_table final_table,
    fst (load_flight_data output_filename w) = Return (initial_table, final_table)
    /\ Pd.nrows initial_table = n
    /\ Pd.nrows final_table = n
    /\ forall i, (i < n)%nat ->
         tl (Pd.iloc initial_table i)
         = map (fun x => Some (Pd.FloatCell x)) (nth (2 * i) body [])
         /\ tl (Pd.iloc final_table i)
            = map (fun x => Some (Pd.FloatCell x)) (nth (2 * i + 1) body []).
Proof.
  intros Hdisk Hwf Hlen.
  assert (Hn : (1 <= n)%nat).
  { destruct n; [|lia]. destruct body; [|discriminate].
    now destruct (wf_first _ _ Hwf). }
  rewrite load_flight_data_spec, Hdisk. cbn [fst].
  rewrite (tables_of_well_formed _ _ Hwf) by lia.
  eexists _, _. split; [reflexivity|].
  rewrite !expected_table_nrows. repeat split.
  - apply every_other_length_even. now rewrite length_skipn, Nat.sub_0_r.
  - destruct n as [|m]; [lia|].
    apply every_other_length_odd. rewrite length_skipn. lia.
  - destruct (well_formed_row text body (2 * i) Hwf) as (row & E & -> & L); [lia|].
    now apply expected_table_row.
  - destruct (well_formed_row text body (2 * i + 1) Hwf) as (row & E & -> & L); [lia|].
    apply expected_table_row; [|exact L].
    now replace (1 + 2 * i)%nat with (2 * i + 1)%nat by lia.
Qed.

(** C10. For a well-formed file of [2n] body rows each table has, before the
    columns named by the header, a first column named index that holds the
    positions its rows had in the body, [0, 2, .., 2n-2] in the initial table
    and [1, 3, .., 2n-1] in the final one, while the rows of both tables are
    labelled [0 .. n-1]. *)
Theorem load_flight_data_keeps_positions (output_filename text : string)
    (w : world) (body : list (list float)) (n : nat) :
  disk w (output_filename ++ ".txt") = Some text ->
  well_formed text body ->
  List.length body = (2 * n)%nat ->
  exists initial_table final_table,
    fst (load_flight_data output_filename w) = Return (initial_table, final_table)
    /\ Pd.labels initial_table = "index" :: header_scan (Py.readlines text)
    /\ Pd.labels final_table = "index" :: header_scan (Py.readlines text)
    /\ hd_error (Pd.columns initial_table)
       = Some ("index", Pd.Int64 (map (fun i => Z.of_nat (2 * i)) (seq 0 n)))
    /\ hd_error (Pd.columns final_table)
       = Some ("index", Pd.Int64 (map (fun i => Z.of_nat (2 * i + 1)) (seq 0 n)))
    /\ Pd.index initial_table = Pd.range n
    /\ Pd.index final_table = Pd.range n.
Proof.
  intros Hdisk Hwf Hlen.
  assert (Hn : (1 <= n)%nat).
  { destruct n; [|lia]. destruct body; [|discriminate].
    now destruct (wf_first _ _ Hwf). }
  rewrite load_flight_data_spec, Hdisk. cbn [fst].
  rewrite (tables_of_well_formed _ _ Hwf) by lia.
  eexists _, _. split; [reflexivity|].
  rewrite !expected_table_labels.
  unfold expected_table. cbn [Pd.columns Pd.index hd_error].
  destruct n as [|m]; [lia|].
  change (skipn 0 body) with body.
  rewrite (every_other_length_even body (S m)) by exact Hlen.
  rewrite (every_other_length_odd (skipn 1 body) m)
    by (rewrite length_skipn; lia).
  rewrite Hlen. unfold Pd.range.
  assert (E1 : skipn 1 (map Z.of_nat (seq 0 (2 * S m)))
               = map Z.of_nat (seq 1 (S (2 * m)))).
  { replace (2 * S m)%nat with (S (S (2 * m))) by lia. reflexivity. }
  rewrite E1. change (skipn 0 ?l) with l.
  rewrite (proj1 (every_other_range (S m) 0)), (proj2 (every_other_range m 1)).
  repeat split. do 3 f_equal. apply map_ext. intros i. f_equal. lia.
Qed.

(** C2, amended. A file of an odd number [2n+1] of body rows, [n >= 1],
    well-formed otherwise, is not refused: the call returns, the initial
    table has [n+1] rows and the final table has [n]. *)
Theorem load_flight_data_odd_rows (output_filename text : string) (w : world)
    (body : list (list float)) (n : nat) :
  disk w (output_filename ++ ".txt") = Some text ->
  well_formed text body ->
  List.length body = S (2 * n) ->
  (1 <= n)%nat ->
  exists initial_table final_table,
    fst (load_flight_data output_filename w) = Return (initial_table, final_table)
    /\ Pd.nrows initial_table = S n
    /\ Pd.nrows final_table = n.
Proof.
  intros Hdisk Hwf Hlen Hn.
  rewrite load_flight_data_spec, Hdisk. cbn [fst].
  rewrite (tables_of_well_formed _ _ Hwf) by lia.
  eexists _, _. split; [reflexivity|].
  rewrite !expected_table_nrows. split.
  - apply every_other_length_odd. now rewrite length_skipn, Nat.sub_0_r.
  - apply every_other_length_even. rewrite length_skipn. lia.
Qed.

End Claims.

(** ** Files that are refused *)

Section Failures.
Context {reader : FloatReader}.

Lemma convert_length (toks : list string) (row : list float) :
  Np.convert toks = Return row -> List.length row = List.length toks.
Proof.
  revert row. induction toks as [|tok toks IH]; intros row; simpl.
  - intros [= <-]. reflexivity.
  - destruct (float_of_string tok); [|discriminate].
    destruct (Np.convert toks) as [xs|]; [|discriminate].
    intros [= <-]. simpl. f_equal. now apply IH.
Qed.

Lemma convert_raises (toks : list string) (e : exn) :
  Np.convert toks = Raise e ->
  exists tok, In tok toks /\ float_of_string tok = None
              /\ e = ValueError (CouldNotConvert tok).
Proof.
  induction toks as [|tok toks IH]; simpl; [discriminate|].
  destruct (float_of_string tok) eqn:E.
  - destruct (Np.convert toks) as [xs|e']; [discriminate|].
    intros [= <-]. destruct (IH eq_refl) as (t & Hin & Hn & He). eauto.
  - intros [= <-]. eauto.
Qed.

Lemma convert_returns (toks : list string) (row : list float) :
  Np.convert toks = Return row -> ~ malformed_row toks.
Proof.
  revert row. induction toks as [|tok toks IH]; intros row H Hbad.
  - inversion Hbad.
  - simpl in H. destruct (float_of_string tok) eqn:E; [|discriminate].
    destruct (Np.convert toks) as [xs|]; [|discriminate].
    inversion Hbad as [? ? Hn|? ? Hrest]; subst.
    + unfold float_of_string in *. congruence.
    + exact (IH xs eq_refl Hrest).
Qed.

Lemma read_rows_raises (lines : list string) :
  forall ncols e, Np.read_rows ncols lines = Raise e -> loadtxt_error e.
Proof.
  induction lines as [|line lines IH]; intros ncols e; cbn [Np.read_rows].
  - discriminate.
  - destruct (Np.fields line) as [|t ts]; [apply IH|].
    destruct (match ncols with Some c => _ | None => _ end).
    + intros [= <-]. now left.
    + destruct (Np.convert (t :: ts)) as [row|e'] eqn:C; cbn [obind].
      * destruct (Np.read_rows _ lines) as [rows|e'] eqn:R; cbn [obind];
          [discriminate|].
        intros [= <-]. eapply IH; eauto.
      * intros [= <-]. apply convert_raises in C as (tok & _ & Hn & ->).
        right. eauto.
Qed.

Lemma read_rows_nonempty (lines : list string) :
  forall ncols rows, Np.read_rows ncols lines = Return rows ->
                     Forall (fun row => (1 <= List.length row)%nat) rows.
Proof.
  induction lines as [|line lines IH]; intros ncols rows; cbn [Np.read_rows].
  - intros [= <-]. constructor.
  - destruct (Np.fields line) as [|t ts]; [apply IH|].
    destruct (match ncols with Some c => _ | None => _ end); [discriminate|].
    destruct (Np.convert (t :: ts)) as [row|e'] eqn:C; cbn [obind]; [|discriminate].
    destruct (Np.read_rows _ lines) as [rows'|e'] eqn:R; cbn [obind];
      [|discriminate].
    intros [= <-]. constructor; [|eauto].
    rewrite (convert_length _ _ C). simpl. lia.
Qed.

Lemma read_rows_malformed (lines : list string) :
  Exists malformed_row
    (filter (fun toks => negb (Nat.eqb (List.length toks) 0)) (map Np.fields lines)) ->
  forall ncols, exists e, Np.read_rows ncols lines = Raise e.
Proof.
  induction lines as [|line lines IH]; intros Hbad ncols; cbn [Np.read_rows];
    simpl in Hbad.
  - inversion Hbad.
  - destruct (Np.fields line) as [|t ts]; simpl in Hbad; [now apply IH|].
    destruct (match ncols with Some c => _ | None => _ end); [eauto|].
    destruct (Np.convert (t :: ts)) as [row|e'] eqn:C; cbn [obind]; [|eauto].
    inversion Hbad as [? ? Hrow|? ? Hrest]; subst.
    + now destruct (convert_returns _ _ C).
    + destruct (IH Hrest (Some (List.length (t :: ts)))) as [e ->].
      cbn [obind]. eauto.
Qed.

(** No list of names fits the array of a file when the list is empty. *)
Lemma frame_without_names (rows : list (list float)) :
  Forall (fun row => (1 <= List.length row)%nat) rows ->
  exists why, Pd.frame (Np.squeeze rows) [] = Raise (ValueError why).
Proof.
  intros H.
  destruct rows as [|r1 rows]; [cbn; eauto|].
  pose proof (Forall_inv H) as H1.
  destruct r1 as [|x [|y r1]]; [simpl in H1; lia| |];
    destruct rows as [|r2 rows]; cbn; eauto.
Qed.

End Failures.

Section FailureClaims.
Context {reader : FloatReader}.

(** C7, amended. The scan over the lines ends at the first line that holds the
    marker, whose fields, each without its first and last character, are the
    names. Without such a line the scan does not fail: the list of names is
    left empty, the numbers are read all the same, and the call ends with a
    ValueError, the one of [np.loadtxt] when the rows are refused, and
    otherwise the one of the table constructor, which no array satisfies
    with no name. *)
Theorem header_scan_first_marker_or_none (output_filename text : string) (w : world) :
  disk w (output_filename ++ ".txt") = Some text ->
  (forall pre line post,
      Py.readlines text = (pre ++ line :: post)%list ->
      forallb (fun l => negb (Py.contains marker l)) pre = true ->
      Py.contains marker line = true ->
      header_scan (Py.readlines text) = map (Py.slice 1 (-1)) (Py.split Py.COMMA line))
  /\ (forallb (fun l => negb (Py.contains marker l)) (Py.readlines text) = true ->
      header_scan (Py.readlines text) = []
      /\ (forall e, Np.loadtxt text 12 = Raise e ->
                    fst (load_flight_data output_filename w) = Raise e)
      /\ fails_with "ValueError" (fst (load_flight_data output_filename w))).
Proof.
  intros Hdisk. split.
  - intros pre line post -> Hpre Hline.
    now rewrite (header_scan_stops pre post line Hpre Hline), strip_fields_map.
  - intros Hnone.
    pose proof (header_scan_none _ Hnone) as Hnames.
    rewrite load_flight_data_spec, Hdisk. cbn [fst].
    unfold tables_of_text. rewrite Hnames.
    split; [reflexivity|]. split.
    + intros e ->. reflexivity.
    + unfold Np.loadtxt.
      destruct (Np.read_rows None (skipn 12 (Py.readlines text))) as [rows|e] eqn:R;
        cbn [obind].
      * destruct (frame_without_names rows (read_rows_nonempty _ _ _ R)) as [why ->].
        cbn [obind]. eexists. split; reflexivity.
      * destruct (read_rows_raises _ _ _ R) as [-> | (tok & _ & ->)];
          eexists; split; reflexivity.
Qed.

(** C8, amended. A body row with a field that does not convert to a number
    makes the call fail before any table is built, with the ValueError of
    [np.loadtxt]: about a field that does not convert, or about the width of
    a row before it. *)
Theorem malformed_row_raises_value_error (output_filename text : string) (w : world) :
  disk w (output_filename ++ ".txt") = Some text ->
  Exists malformed_row (data_rows text) ->
  exists e, fst (load_flight_data output_filename w) = Raise e
            /\ loadtxt_error e
            /\ class_name e = "ValueError".
Proof.
  intros Hdisk Hbad.
  rewrite load_flight_data_spec, Hdisk. cbn [fst].
  unfold tables_of_text, Np.loadtxt.
  destruct (read_rows_malformed _ Hbad None) as [e R].
  rewrite R. cbn [obind]. exists e. split; [reflexivity|].
  pose proof (read_rows_raises _ _ _ R) as He. split; [exact He|].
  destruct He as [-> | (tok & _ & ->)]; reflexivity.
Qed.

End FailureClaims.

(** ** The loop over the voltages *)

Lemma monotonicity_loop_cons (v w : float) (rest : list float) (penalty : penalty_value) :
  monotonicity_loop (v :: w :: rest) penalty
  = monotonicity_loop (w :: rest)
      (if (v <? w)%float then padd penalty (Scalar 500) else penalty).
Proof.
  unfold monotonicity_loop.
  cbn [List.length Nat.sub]. rewrite !Nat.sub_0_r.
  change (seq 0 (S (List.length rest))) with (0%nat :: seq 1 (List.length rest)).
  cbn [fold_left nth].
  rewrite <- seq_shift.
  generalize (if (v <? w)%float then padd penalty (Scalar 500) else penalty).
  generalize (seq 0 (List.length rest)).
  intros ixs. induction ixs as [|i ixs IH]; intros p; [reflexivity|].
  cbn [map fold_left]. rewrite <- IH. reflexivity.
Qed.

Lemma monotonicity_loop_count (voltages : list float) (penalty : penalty_value) :
  monotonicity_loop voltages penalty
  = Nat.iter (count_increasing voltages) (fun p => padd p (Scalar 500)) penalty.
Proof.
  revert penalty.
  induction voltages as [|v rest IH]; intros penalty; [reflexivity|].
  destruct rest as [|w rest]; [reflexivity|].
  rewrite monotonicity_loop_cons, IH.
  cbn [count_increasing].
  destruct (v <? w)%float; [|reflexivity].
  cbn [Nat.add]. now rewrite Nat.iter_succ_r.
Qed.

(** ** Loaded tables are paired *)

Lemma getitem_series_In (df : Pd.DataFrame) (label : string) (c : Pd.column) :
  Pd.getitem df label = Return (Pd.Series c) ->
  exists l, In (l, c) (Pd.columns df).
Proof.
  unfold Pd.getitem.
  destruct (filter _ (Pd.columns df)) as [|lc [|lc' rest]] eqn:F; try discriminate.
  intros [= <-]. exists (fst lc).
  assert (Hin : In lc (filter (fun lc => String.eqb (fst lc) label) (Pd.columns df)))
    by (rewrite F; now left).
  apply filter_In in Hin as [Hin _]. now destruct lc.
Qed.

Lemma expected_table_col_length (names : list string) (body : list (list float))
    (start : nat) (l : string) (c : Pd.column) :
  In (l, c) (Pd.columns (expected_table names body start)) ->
  Pd.col_length c = List.length (Pd.every_other (skipn start body)).
Proof.
  unfold expected_table. cbn [Pd.columns In].
  intros [[= _ <-] | Hin].
  - cbn [Pd.col_length].
    now rewrite !every_other_length, !length_skipn, range_length.
  - apply in_combine_r, in_map_iff in Hin as (j & <- & _).
    unfold Pd.column_of. cbn [Pd.col_length]. apply length_map.
Qed.

Section Paired.
Context {reader : FloatReader}.

Lemma loaded_tables_paired (text : string) (body : list (list float)) (n : nat)
    (df_ic df_res : Pd.DataFrame) (ke ys : list float) :
  well_formed text body ->
  List.length body = (2 * n)%nat ->
  tables_of_text text = Return (df_ic, df_res) ->
  Pd.getitem df_ic "KE" = Return (Pd.Series (Pd.Float64 ke)) ->
  Pd.getitem df_res "Y" = Return (Pd.Series (Pd.Float64 ys)) ->
  paired df_ic df_res ke ys.
Proof.
  intros Hwf Hlen Htab Hke Hy.
  assert (Hn : (1 <= n)%nat).
  { destruct n; [|lia]. destruct body; [|discriminate].
    now destruct (wf_first _ _ Hwf). }
  rewrite (tables_of_well_formed _ _ Hwf) in Htab by lia.
  injection Htab as <- <-.
  destruct (getitem_series_In _ _ _ Hke) as [l Hl].
  destruct (getitem_series_In _ _ _ Hy) as [l' Hl'].
  apply expected_table_col_length in Hl, Hl'. cbn [Pd.col_length] in Hl, Hl'.
  assert (E0 : List.length (Pd.every_other (skipn 0 body)) = n)
    by (apply every_other_length_even; now rewrite length_skipn, Nat.sub_0_r).
  assert (E1 : List.length (Pd.every_other (skipn 1 body)) = n).
  { destruct n as [|m]; [lia|].
    apply every_other_length_odd. rewrite length_skipn. lia. }
  unfold paired. rewrite Hl, Hl', E0, E1.
  repeat split; auto; unfold expected_table; cbn [Pd.index]; congruence.
Qed.

End Paired.

(** ** float64 *)

Lemma SFeqb_same (x y : spec_float) : SFeqb x y = true <-> sf_same x y.
Proof.
  destruct x as [s|s| |s m e], y as [s'|s'| |s' m' e']; cbn;
    try (split; [discriminate | contradiction]);
    try (destruct s; cbn; (split; [discriminate | contradiction]));
    try (destruct s'; cbn; (split; [discriminate | contradiction])).
  - tauto.
  - destruct s, s'; cbn; split; intros; try discriminate; auto.
  - unfold SFeqb, SFcompare. split.
    + destruct s, s'; try discriminate;
        (destruct (Z.compare_spec e e'); try discriminate; subst;
         destruct (Pos.compare_cont Eq m m') eqn:E; try discriminate;
         apply Pos.compare_eq in E; auto).
    + intros (-> & -> & ->).
      now destruct s'; rewrite Z.compare_refl, Pos.compare_cont_refl.
Qed.

Lemma sf_same_sym (x y : spec_float) : sf_same x y -> sf_same y x.
Proof.
  destruct x, y; cbn; try tauto; try congruence.
  intros (-> & -> & ->). auto.
Qed.

Lemma sf_same_trans (x y z : spec_float) : sf_same x y -> sf_same y z -> sf_same x z.
Proof.
  destruct x, y, z; cbn; try tauto; try congruence.
  intros (-> & -> & ->) (-> & -> & ->). auto.
Qed.

Lemma float_eqb_sym (x y : float) : PrimFloat.eqb x y = PrimFloat.eqb y x.
Proof.
  rewrite !FloatAxioms.eqb_spec.
  destruct (SFeqb (Prim2SF x) (Prim2SF y)) eqn:E1,
           (SFeqb (Prim2SF y) (Prim2SF x)) eqn:E2; auto.
  - apply SFeqb_same, sf_same_sym, SFeqb_same in E1. congruence.
  - apply SFeqb_same, sf_same_sym, SFeqb_same in E2. congruence.
Qed.

Lemma float_eqb_trans (x y z : float) :
  PrimFloat.eqb x y = true -> PrimFloat.eqb y z = true -> PrimFloat.eqb x z = true.
Proof.
  rewrite !FloatAxioms.eqb_spec, !SFeqb_same. apply sf_same_trans.
Qed.

Lemma finite_cases (x : float) :
  PrimFloat.is_finite x = true ->
  (exists s, Prim2SF x = S754_zero s)
  \/ (exists s m e, Prim2SF x = S754_finite s m e).
Proof.
  unfold PrimFloat.is_finite, PrimFloat.is_nan, PrimFloat.is_infinity.
  rewrite !FloatAxioms.eqb_spec, abs_spec.
  change (Prim2SF infinity) with (S754_infinity false).
  destruct (Prim2SF x) as [s|s| |s m e]; cbn; intros H; try discriminate; eauto.
  destruct s; cbn in H; discriminate.
Qed.

Lemma finite_not_nan (x : float) :
  PrimFloat.is_finite x = true -> PrimFloat.is_nan x = false.
Proof.
  unfold PrimFloat.is_finite. destruct (PrimFloat.is_nan x); [discriminate|reflexivity].
Qed.

(** The difference of two equal finite floats is a zero, and its square is
    the positive zero. *)
Lemma equal_finite_spread (x y : float) :
  PrimFloat.is_finite x = true -> PrimFloat.is_finite y = true ->
  PrimFloat.eqb x y = true ->
  ((x - y) * (x - y))%float = 0%float.
Proof.
  intros Hx Hy E.
  rewrite <- (SF2Prim_Prim2SF ((x - y) * (x - y))).
  rewrite mul_spec, sub_spec.
  rewrite FloatAxioms.eqb_spec, SFeqb_same in E.
  destruct (finite_cases x Hx) as [[s Ex]|(s & m & e & Ex)];
    destruct (finite_cases y Hy) as [[s' Ey]|(s' & m' & e' & Ey)];
    rewrite Ex, Ey in *; cbn in E; try contradiction.
  - destruct s, s'; reflexivity.
  - destruct E as (-> & -> & ->).
    unfold SF64sub, SFsub. rewrite Z.sub_diag. reflexivity.
Qed.

(** ** Maxima, minima and distinct values *)

Lemma fold_pick_In {A} (keep : A -> A -> bool) (rest : list A) (x : A) :
  In (fold_left (fun acc y => if keep acc y then acc else y) rest x) (x :: rest).
Proof.
  revert x. induction rest as [|y rest IH]; intros x; cbn [fold_left].
  - now left.
  - destruct (keep x y).
    + destruct (IH x) as [<- | Hin]; [now left | now right; right].
    + right. apply IH.
Qed.

Lemma forallb_filter_id {A} (f : A -> bool) (xs : list A) :
  forallb f xs = true -> filter f xs = xs.
Proof.
  induction xs as [|x xs IH]; cbn; [reflexivity|].
  intros H. apply andb_prop in H as [-> H]. now rewrite IH.
Qed.

Lemma series_max_In (xs : list float) :
  xs <> [] -> forallb (fun x => negb (PrimFloat.is_nan x)) xs = true ->
  In (Pd.series_max xs) xs.
Proof.
  intros Hne Hnan. unfold Pd.series_max, Pd.notna.
  rewrite (forallb_filter_id _ _ Hnan).
  destruct xs as [|x rest]; [contradiction|].
  exact (fold_pick_In (fun acc y => PrimFloat.leb y acc) rest x).
Qed.

Lemma series_min_In (xs : list float) :
  xs <> [] -> forallb (fun x => negb (PrimFloat.is_nan x)) xs = true ->
  In (Pd.series_min xs) xs.
Proof.
  intros Hne Hnan. unfold Pd.series_min, Pd.notna.
  rewrite (forallb_filter_id _ _ Hnan).
  destruct xs as [|x rest]; [contradiction|].
  exact (fold_pick_In (fun acc y => PrimFloat.leb acc y) rest x).
Qed.

Lemma unique_from_In (xs seen : list float) (e : float) :
  In e (Pd.unique_from seen xs) -> In e xs.
Proof.
  revert seen. induction xs as [|x xs IH]; intros seen; cbn; [tauto|].
  destruct (existsb (Pd.same_key x) seen).
  - intros H. right. eapply IH; eauto.
  - intros [<- | H]; [now left | right; eapply IH; eauto].
Qed.

(** ** Rows picked by a selector *)

Lemma select_In {A} (f : float -> bool) (ke : list float) (ys : list A) (y : A) :
  In y (Pd.select (map f ke) ys) ->
  exists k, In (k, y) (combine ke ys) /\ f k = true.
Proof.
  revert ys. induction ke as [|k ke IH]; intros [|y0 ys]; cbn; try tauto.
  destruct (f k) eqn:E.
  - intros [<- | H]; [eauto|].
    destruct (IH _ H) as (k' & Hin & Hk). eauto.
  - intros H. destruct (IH _ H) as (k' & Hin & Hk). eauto.
Qed.

Lemma In_select {A} (f : float -> bool) (ke : list float) (ys : list A)
    (k : float) (y : A) :
  In (k, y) (combine ke ys) -> f k = true -> In y (Pd.select (map f ke) ys).
Proof.
  revert ys. induction ke as [|k0 ke IH]; intros [|y0 ys]; cbn; try tauto.
  intros [[= -> ->] | H] Hk.
  - rewrite Hk. now left.
  - destruct (f k0); [right|]; eauto.
Qed.

Lemma In_combine_left {A B} (xs : list A) (ys : list B) (x : A) :
  List.length xs = List.length ys -> In x xs -> exists y, In (x, y) (combine xs ys).
Proof.
  revert ys. induction xs as [|x0 xs IH]; intros [|y0 ys]; cbn; try tauto;
    try discriminate.
  intros L [-> | H]; [eauto|].
  destruct (IH ys (eq_add_S _ _ L) H) as [y Hy]. eauto.
Qed.

(** ** The penalty of the energy groups on paired tables *)

Lemma find_label (pre rest : list Z) (bpre brest : list bool) (l : Z) (b : bool) :
  ~ In l pre -> List.length pre = List.length bpre ->
  find (fun lb => Z.eqb (fst lb) l)
       (combine (pre ++ l :: rest)%list (bpre ++ b :: brest)%list)
  = Some (l, b).
Proof.
  revert bpre. induction pre as [|p pre IH]; intros [|bp bpre] Hnot Hlen;
    try discriminate; cbn.
  - now rewrite Z.eqb_refl.
  - destruct (Z.eqb_spec p l) as [->|_].
    + destruct Hnot. now left.
    + apply IH; [|now injection Hlen]. intros H. apply Hnot. now right.
Qed.

Lemma align_suffix (idx : list Z) :
  forall (bs : list bool) (pre : list Z) (bpre : list bool),
    NoDup (pre ++ idx)%list ->
    List.length pre = List.length bpre ->
    List.length idx = List.length bs ->
    Pd.align (combine (pre ++ idx)%list (bpre ++ bs)%list) idx = Return bs.
Proof.
  induction idx as [|l idx IH]; intros [|b bs] pre bpre Hnd Hpre Hlen;
    try discriminate; cbn [Pd.align]; [reflexivity|].
  rewrite find_label; [|now apply NoDup_remove_2 in Hnd; intros H; apply Hnd, in_or_app; left|exact Hpre].
  cbn [snd].
  replace (pre ++ l :: idx)%list with ((pre ++ [l]) ++ idx)%list
    by now rewrite <- app_assoc.
  replace (bpre ++ b :: bs)%list with ((bpre ++ [b]) ++ bs)%list
    by now rewrite <- app_assoc.
  rewrite IH; [reflexivity| | |].
  - now rewrite <- app_assoc.
  - rewrite !length_app. cbn. lia.
  - now injection Hlen.
Qed.

Lemma range_NoDup (n : nat) : NoDup (Pd.range n).
Proof.
  unfold Pd.range. apply Finite.Injective_map_NoDup; [|apply seq_NoDup].
  intros a b. apply Nat2Z.inj.
Qed.

Lemma align_range (n : nat) (bs : list bool) :
  List.length bs = n -> Pd.align (combine (Pd.range n) bs) (Pd.range n) = Return bs.
Proof.
  intros H.
  apply (align_suffix (Pd.range n) bs [] []); cbn; auto using range_NoDup.
  now rewrite range_length.
Qed.

Lemma filter_map_swap {A B} (p : B -> bool) (g : A -> B) (xs : list A) :
  filter p (map g xs) = map g (filter (fun x => p (g x)) xs).
Proof.
  induction xs as [|x xs IH]; cbn; [reflexivity|].
  destruct (p (g x)); cbn; now rewrite IH.
Qed.

Lemma getitem_take_rows (f : forall A, list A -> list A) (df : Pd.DataFrame)
    (label : string) :
  Pd.getitem (Pd.take_rows f df) label
  = match Pd.getitem df label with
    | Return (Pd.Series c) => Return (Pd.Series (Pd.col_map f c))
    | Return (Pd.Frame cs) => Return (Pd.Frame (map (Pd.col_map f) cs))
    | Raise e => Raise e
    end.
Proof.
  unfold Pd.getitem, Pd.take_rows. cbn [Pd.columns].
  rewrite filter_map_swap. cbn [fst].
  destruct (filter _ (Pd.columns df)) as [|lc [|lc' rest]]; cbn; try reflexivity.
  now rewrite !map_map.
Qed.

Section Grouping.
Variables (df_ic df_res : Pd.DataFrame) (ke ys : list float) (n : nat).
Hypothesis ic_index : Pd.index df_ic = Pd.range n.
Hypothesis res_index : Pd.index df_res = Pd.range n.
Hypothesis ic_ke : Pd.getitem df_ic "KE" = Return (Pd.Series (Pd.Float64 ke)).
Hypothesis res_y : Pd.getitem df_res "Y" = Return (Pd.Series (Pd.Float64 ys)).
Hypothesis ke_length : List.length ke = n.

Lemma group_term_paired (energy : float) :
  group_term df_res (Pd.range n) ke energy
  = Return (Scalar (spread_sq (y_of_group ke ys energy))).
Proof.
  unfold group_term, Pd.loc. rewrite res_index.
  rewrite align_range by now rewrite length_map.
  cbn [obind]. rewrite getitem_take_rows, res_y. reflexivity.
Qed.

Lemma grouping_loop_paired (energies : list float) (x : float) :
  grouping_loop df_res (Pd.range n) ke energies (Scalar x)
  = Return (Scalar (fold_left
                      (fun acc energy => (acc + spread_sq (y_of_group ke ys energy))%float)
                      energies x)).
Proof.
  revert x. induction energies as [|energy rest IH]; intros x;
    cbn [grouping_loop fold_left]; [reflexivity|].
  rewrite group_term_paired. cbn [obind padd]. apply IH.
Qed.

Lemma grouping_penalty_paired :
  grouping_penalty df_ic df_res = Return (Scalar (spread_sum ke ys)).
Proof.
  unfold grouping_penalty. rewrite ic_ke. cbn [obind Pd.to_float64].
  rewrite ic_index. apply grouping_loop_paired.
Qed.

End Grouping.

(** ** Groups without spread *)

Lemma zero_spread_pairs (ke ys : list float) (a b : float * float) :
  zero_spread ke ys = true ->
  In a (combine ke ys) -> In b (combine ke ys) ->
  PrimFloat.eqb (fst a) (fst b) = true -> PrimFloat.eqb (snd a) (snd b) = true.
Proof.
  unfold zero_spread. intros H Ha Hb E.
  rewrite forallb_forall in H. specialize (H a Ha).
  rewrite forallb_forall in H. specialize (H b Hb).
  rewrite E in H. exact H.
Qed.

Lemma sum_of_zeros {A} (f : A -> float) (xs : list A) :
  (forall x, In x xs -> f x = 0%float) ->
  fold_left (fun acc x => (acc + f x)%float) xs 0%float = 0%float.
Proof.
  induction xs as [|x xs IH]; intros H; cbn [fold_left]; [reflexivity|].
  rewrite (H x) by now left.
  change (0 + 0)%float with 0%float. apply IH. intros y Hy. apply H. now right.
Qed.

Lemma spread_sum_zero (ke ys : list float) :
  List.length ke = List.length ys ->
  forallb (fun k => negb (PrimFloat.is_nan k)) ke = true ->
  forallb PrimFloat.is_finite ys = true ->
  zero_spread ke ys = true ->
  spread_sum ke ys = 0%float.
Proof.
  intros Hlen Hke Hys Hzero. unfold spread_sum.
  apply sum_of_zeros. intros energy Hin.
  apply unique_from_In in Hin.
  set (g := y_of_group ke ys energy).
  assert (Hfin : forall y, In y g -> PrimFloat.is_finite y = true).
  { intros y Hy. apply select_In in Hy as (k & Hk & _).
    apply in_combine_r in Hk. rewrite forallb_forall in Hys. auto. }
  assert (Heq : forall y y', In y g -> In y' g -> PrimFloat.eqb y y' = true).
  { intros y y' Hy Hy'.
    apply select_In in Hy as (k & Hk & Ek).
    apply select_In in Hy' as (k' & Hk' & Ek').
    apply (zero_spread_pairs ke ys (k, y) (k', y') Hzero Hk Hk').
    cbn [fst]. apply (float_eqb_trans k energy k' Ek).
    now rewrite float_eqb_sym. }
  assert (Hne : g <> []).
  { destruct (In_combine_left ke ys energy Hlen Hin) as [y Hy].
    assert (Hg : In y g).
    { apply (In_select _ ke ys energy y Hy).
      rewrite forallb_forall in Hke. specialize (Hke energy Hin).
      unfold PrimFloat.is_nan in Hke. now rewrite negb_involutive in Hke. }
    intros E. rewrite E in Hg. contradiction. }
  assert (Hnan : forallb (fun x => negb (PrimFloat.is_nan x)) g = true).
  { apply forallb_forall. intros y Hy. now rewrite (finite_not_nan y (Hfin y Hy)). }
  pose proof (series_max_In g Hne Hnan) as Hmax.
  pose proof (series_min_In g Hne Hnan) as Hmin.
  unfold spread_sq. fold g. cbv zeta.
  apply equal_finite_spread; auto.
Qed.

(** ** The whole call *)

Section Call.
Context {reader : FloatReader} {simion : Simion}.

Lemma vmi_cost_function_returns (v0 v1 : float) (rest : list float)
    (workspace_filename rec_filename data_filename text : string)
    (w : world) (df_ic df_res : Pd.DataFrame) (g : penalty_value) :
  (forall d, simion_run (Fly (rec_filename ++ ".rec") (data_filename ++ ".txt")
                             (workspace_filename ++ ".iob")) d
                        (data_filename ++ ".txt") = Some text) ->
  tables_of_text text = Return (df_ic, df_res) ->
  grouping_penalty df_ic df_res = Return g ->
  fst (vmi_cost_function (v0 :: v1 :: rest) workspace_filename rec_filename
         data_filename w)
  = Return (monotonicity_loop (v0 :: v1 :: rest) g).
Proof.
  intros Hfly Htab Hg.
  unfold vmi_cost_function, bind, lift, ret, getitem_list. cbn [nth_error].
  unfold simion_command at 1.
  unfold fly, bind, path_exists, remove, ret, simion_command. cbn [disk printed].
  set (d1 := simion_run (Fastadj _ _) (disk w)). clearbody d1.
  destruct (d1 (data_filename ++ ".txt")) eqn:E;
    cbn [disk printed]; rewrite ?E; cbv beta iota;
    rewrite load_flight_data_spec; cbn [disk printed]; rewrite Hfly, Htab;
    unfold rm_tmp, print; rewrite Hg; reflexivity.
Qed.

End Call.

Ltac perm_head H :=
  match type of H with
  | Permutation (?p :: ?l) ?t =>
      let Hin := fresh "Hin" in
      assert (Hin : In p t) by (apply (Permutation_in p H); now left);
      cbn [In] in Hin;
      repeat match type of Hin with
             | _ \/ _ => destruct Hin as [Hin | Hin]
             end;
      [ .. | contradiction Hin ];
      (injection Hin as <- <- || subst p);
      first [ apply (Permutation_cons_app_inv [] _) in H
            | apply (Permutation_cons_app_inv [_] _) in H
            | apply (Permutation_cons_app_inv [_; _] _) in H
            | apply (Permutation_cons_app_inv [_; _; _] _) in H ];
      cbn [app] in H
  end.

Lemma two_groups_spread_sum (ke ys : list float) :
  List.length ys = List.length ke ->
  two_groups ke ys ->
  spread_sum ke ys = 4%float.
Proof.
  intros Hlen (a & b & Haa & Hbb & Hab & Hperm).
  assert (Hba : PrimFloat.eqb b a = false) by now rewrite float_eqb_sym.
  pose proof (Permutation_length Hperm) as L.
  rewrite length_combine, <- Hlen, Nat.min_id in L. cbn in L.
  destruct ys as [|y1 [|y2 [|y3 [|y4 [|]]]]]; try discriminate.
  destruct ke as [|k1 [|k2 [|k3 [|k4 [|]]]]]; try discriminate.
  cbn [combine] in Hperm.
  perm_head Hperm; perm_head Hperm; perm_head Hperm; perm_head Hperm;
    unfold spread_sum, y_of_group, Pd.unique, Pd.unique_from, Pd.same_key,
      PrimFloat.is_nan;
    cbn [existsb map Pd.select fold_left];
    rewrite ?Haa, ?Hbb, ?Hab, ?Hba; cbn [negb andb orb existsb];
    rewrite ?Haa, ?Hbb, ?Hab, ?Hba; cbn [negb andb orb existsb fold_left map Pd.select];
    rewrite ?Haa, ?Hbb, ?Hab, ?Hba; cbn [negb andb orb existsb fold_left map Pd.select];
    reflexivity.
Qed.

(** ** The files of the examples *)

Lemma not_fails_with_return {A} (name : string) (a : A) :
  ~ fails_with name (Return a).
Proof. intros (e & H & _). discriminate. Qed.

Lemma value_error_class {A} (name : string) (why : value_error) :
  name <> "ValueError" -> ~ @fails_with A name (Raise (ValueError why)).
Proof. intros Hne (e & [= <-] & H). cbn in H. congruence. Qed.

Lemma four_rows_well_formed :
  @well_formed Example.decimal Example.four_rows Example.four_rows_body.
Proof.
  split.
  - vm_compute. repeat constructor.
  - vm_compute. repeat constructor.
  - discriminate.
  - vm_compute. intuition discriminate.
Defined.

Lemma three_rows_well_formed :
  @well_formed Example.decimal Example.three_rows Example.three_rows_body.
Proof.
  split.
  - vm_compute. repeat constructor.
  - vm_compute. repeat constructor.
  - discriminate.
  - vm_compute. intuition discriminate.
Defined.

(** C1. The file whose header line is the quoted names Ion N, KE and Y
    followed by a line terminator, with four body rows: the scan gives the
    last name with its closing quote still on, so the tables are labelled
    with it and no column is named Y. *)
Theorem header_last_name_keeps_its_quote :
  header_scan (Py.readlines Example.four_rows)
  = ["Ion N"; "KE"; "Y" ++ Py.chr Py.DQ]
  /\ exists initial_table final_table,
       Example.load Example.four_rows = Return (initial_table, final_table)
       /\ Pd.labels initial_table = ["index"; "Ion N"; "KE"; "Y" ++ Py.chr Py.DQ]
       /\ Pd.labels final_table = ["index"; "Ion N"; "KE"; "Y" ++ Py.chr Py.DQ]
       /\ Pd.getitem final_table "Y" = Raise (KeyError "Y").
Proof.
  split; [reflexivity|].
  eexists _, _. split; [vm_compute; reflexivity|].
  repeat split.
Qed.

(** C2, counterexample. A file of three body rows loads: the initial table
    has two rows, the final table has one, and no exception ends the call. *)
Lemma odd_rows_are_not_refused :
  (exists initial_table final_table,
      Example.load Example.three_rows = Return (initial_table, final_table)
      /\ Pd.nrows initial_table = 2%nat
      /\ Pd.nrows final_table = 1%nat)
  /\ ~ fails_with "StructuralError" (Example.load Example.three_rows).
Proof.
  split.
  - eexists _, _. split; [vm_compute; reflexivity|]. split; reflexivity.
  - assert (E : Example.load Example.three_rows
                = Return (Example.loaded Example.three_rows))
      by (vm_compute; reflexivity).
    rewrite E. apply not_fails_with_return.
Qed.

(** The file of three body rows, for C2 as amended. *)
Lemma load_flight_data_odd_rows_witness :
  exists initial_table final_table,
    Example.load Example.three_rows = Return (initial_table, final_table)
    /\ Pd.nrows initial_table = 2%nat
    /\ Pd.nrows final_table = 1%nat.
Proof.
  exact (@load_flight_data_odd_rows Example.decimal "data" Example.three_rows
           (Example.on_disk "data.txt" Example.three_rows)
           Example.three_rows_body 1 eq_refl three_rows_well_formed eq_refl
           (le_n 1)).
Defined.

(** The file of four body rows, for C3. *)
Lemma load_flight_data_pairs_rows_witness :
  exists initial_table final_table,
    Example.load Example.four_rows = Return (initial_table, final_table)
    /\ Pd.nrows initial_table = 2%nat
    /\ Pd.nrows final_table = 2%nat
    /\ forall i, (i < 2)%nat ->
         tl (Pd.iloc initial_table i)
         = map (fun x => Some (Pd.FloatCell x)) (nth (2 * i) Example.four_rows_body [])
         /\ tl (Pd.iloc final_table i)
            = map (fun x => Some (Pd.FloatCell x))
                  (nth (2 * i + 1) Example.four_rows_body []).
Proof.
  exact (@load_flight_data_pairs_rows Example.decimal "data" Example.four_rows
           (Example.on_disk "data.txt" Example.four_rows)
           Example.four_rows_body 2 eq_refl four_rows_well_formed eq_refl).
Defined.

(** The file of four body rows, for C10. *)
Lemma load_flight_data_keeps_positions_witness :
  exists initial_table final_table,
    Example.load Example.four_rows = Return (initial_table, final_table)
    /\ Pd.labels initial_table = "index" :: header_scan (Py.readlines Example.four_rows)
    /\ Pd.labels final_table = "index" :: header_scan (Py.readlines Example.four_rows)
    /\ hd_error (Pd.columns initial_table) = Some ("index", Pd.Int64 [0; 2])
    /\ hd_error (Pd.columns final_table) = Some ("index", Pd.Int64 [1; 3])
    /\ Pd.index initial_table = [0; 1]
    /\ Pd.index final_table = [0; 1].
Proof.
  exact (@load_flight_data_keeps_positions Example.decimal "data" Example.four_rows
           (Example.on_disk "data.txt" Example.four_rows)
           Example.four_rows_body 2 eq_refl four_rows_well_formed eq_refl).
Defined.

Lemma nan_is_not_zero : Scalar nan <> Scalar 0.
Proof.
  intros H.
  assert (E : PrimFloat.is_nan nan = PrimFloat.is_nan 0) by congruence.
  discriminate E.
Qed.

(** C7, counterexample. A file without a marker line and with two good rows
    of three numbers: the scan ends with no name, and the call ends with the
    ValueError of the table constructor, not with a FormatError. *)
Lemma missing_marker_is_no_format_error :
  header_scan (Py.readlines Example.no_header) = []
  /\ Example.load Example.no_header
     = Raise (ValueError (ShapeMismatch (2%nat, 3%nat) (2%nat, 0%nat)))
  /\ ~ fails_with "FormatError" (Example.load Example.no_header).
Proof.
  assert (E : Example.load Example.no_header
              = Raise (ValueError (ShapeMismatch (2%nat, 3%nat) (2%nat, 0%nat))))
    by (vm_compute; reflexivity).
  split; [reflexivity|]. split; [exact E|].
  rewrite E. apply value_error_class. discriminate.
Qed.

(** A file with its header on line 10 and a file without one, for C7 as
    amended. *)
Lemma header_scan_first_marker_or_none_witness :
  header_scan (Py.readlines Example.four_rows)
  = map (Py.slice 1 (-1))
        (Py.split Py.COMMA (Example.header ["Ion N"; "KE"; "Y"]))
  /\ header_scan (Py.readlines Example.no_header) = []
  /\ (forall e, @Np.loadtxt Example.decimal Example.no_header 12 = Raise e ->
                Example.load Example.no_header = Raise e)
  /\ fails_with "ValueError" (Example.load Example.no_header).
Proof.
  split.
  - apply (proj1 (@header_scan_first_marker_or_none Example.decimal "data"
                    Example.four_rows
                    (Example.on_disk "data.txt" Example.four_rows) eq_refl)
             (Example.line "Begin Fly" :: repeat (Example.line EmptyString) 9)
             (Example.header ["Ion N"; "KE"; "Y"])
             (Example.line EmptyString
                :: map Example.line ["1,10.0,0.5"; "1,9.5,1.0"; "2,20.0,0.25"; "2,19.0,2.0"])).
    + vm_compute. reflexivity.
    + reflexivity.
    + reflexivity.
  - apply (proj2 (@header_scan_first_marker_or_none Example.decimal "data"
                    Example.no_header
                    (Example.on_disk "data.txt" Example.no_header) eq_refl)).
    reflexivity.
Defined.

(** C8, counterexample. A body row with the field abc: the call ends with the
    ValueError of [np.loadtxt] about that field, not with a ParseError; the
    source adds nothing to what the library reports. *)
Lemma bad_token_is_no_parse_error :
  Example.load Example.bad_token = Raise (ValueError (CouldNotConvert "abc"))
  /\ ~ fails_with "ParseError" (Example.load Example.bad_token).
Proof.
  assert (E : Example.load Example.bad_token
              = Raise (ValueError (CouldNotConvert "abc")))
    by (vm_compute; reflexivity).
  split; [exact E|].
  rewrite E. apply value_error_class. discriminate.
Qed.

(** The file with the field abc, for C8 as amended. *)
Lemma malformed_row_raises_value_error_witness :
  exists e, Example.load Example.bad_token = Raise e
            /\ @loadtxt_error Example.decimal e
            /\ class_name e = "ValueError".
Proof.
  apply (@malformed_row_raises_value_error Example.decimal "data" Example.bad_token
           (Example.on_disk "data.txt" Example.bad_token) eq_refl).
  replace (data_rows Example.bad_token)
    with [["1"; "10.0"; "0.5"]; ["1"; "abc"; "1.0"]] by (vm_compute; reflexivity).
  apply Exists_cons_tl, Exists_cons_hd, Exists_cons_tl, Exists_cons_hd.
  reflexivity.
Defined.

(** * Further properties *)

(** ** The sign of the penalty *)

Lemma ltb_zero_sign (x : float) :
  negb (x <? 0)%float = sf_not_negative (Prim2SF x).
Proof.
  rewrite ltb_spec. change (Prim2SF 0) with (S754_zero false).
  destruct (Prim2SF x) as [s|s| |s m e]; try destruct s; reflexivity.
Qed.

Lemma binary_round_aux_sign (mx ex : Z) (lx : location) :
  sf_not_negative (binary_round_aux prec emax false mx ex lx) = true.
Proof.
  unfold binary_round_aux.
  destruct (shr_fexp prec emax mx ex lx) as [mrs' e'].
  destruct (shr_fexp prec emax _ e' loc_Exact) as [mrs'' e''].
  destruct (shr_m mrs''); try reflexivity.
  now destruct (Z.leb _ _).
Qed.

Lemma square_sign (x : spec_float) : sf_not_negative (SF64mul x x) = true.
Proof.
  destruct x as [s|s| |s m e]; try (now destruct s); try reflexivity.
  unfold SF64mul, SFmul. rewrite xorb_nilpotent.
  apply binary_round_aux_sign.
Qed.

Lemma add_sign (x y : spec_float) :
  sf_not_negative x = true -> sf_not_negative y = true ->
  sf_not_negative (SF64add x y) = true.
Proof.
  destruct x as [s|s| |s m e], y as [s'|s'| |s' m' e'];
    try destruct s; try destruct s'; cbn [sf_not_negative];
    try discriminate; try reflexivity.
  intros _ _. unfold SF64add, SFadd, cond_Zopp.
  generalize (fst (shl_align m e (Z.min e e'))) as a.
  generalize (fst (shl_align m' e' (Z.min e e'))) as b.
  intros b a. cbn [Z.add binary_normalize]. unfold binary_round.
  destruct (shl_align _ _ _) as [mz ez].
  apply binary_round_aux_sign.
Qed.

Lemma float_add_not_negative (x y : float) :
  negb (x <? 0)%float = true -> negb (y <? 0)%float = true ->
  negb (x + y <? 0)%float = true.
Proof.
  rewrite !ltb_zero_sign, add_spec. apply add_sign.
Qed.

Lemma float_square_not_negative (d : float) : negb (d * d <? 0)%float = true.
Proof. rewrite ltb_zero_sign, mul_spec. apply square_sign. Qed.

Lemma padd_not_negative (p q : penalty_value) :
  penalty_not_negative p = true -> penalty_not_negative q = true ->
  penalty_not_negative (padd p q) = true.
Proof.
  destruct p as [a|xs], q as [b|bs]; cbn [penalty_not_negative padd];
    intros Hp Hq.
  - now apply float_add_not_negative.
  - rewrite forallb_forall in *. intros y Hy.
    apply in_map_iff in Hy as (b & <- & Hb). apply float_add_not_negative; auto.
  - rewrite forallb_forall in *. intros y Hy.
    apply in_map_iff in Hy as (a & <- & Ha). apply float_add_not_negative; auto.
  - rewrite forallb_forall in *. intros y Hy.
    apply in_map_iff in Hy as ([a b] & <- & Hab). cbn [fst snd].
    apply float_add_not_negative;
      [apply Hp; eapply in_combine_l | apply Hq; eapply in_combine_r]; eauto.
Qed.

Lemma group_term_not_negative (df_res : Pd.DataFrame) (ic_index : list Z)
    (ke : list float) (energy : float) (t : penalty_value) :
  group_term df_res ic_index ke energy = Return t ->
  penalty_not_negative t = true.
Proof.
  unfold group_term.
  destruct (Pd.loc df_res _) as [rows|e]; cbn [obind]; [|discriminate].
  destruct (Pd.getitem rows "Y") as [[c|cs]|e]; cbn [obind]; [| |discriminate];
    intros [= <-]; cbn [penalty_not_negative].
  - apply float_square_not_negative.
  - apply forallb_forall. intros y Hy.
    apply in_map_iff in Hy as (c & <- & _). apply float_square_not_negative.
Qed.

Lemma grouping_loop_not_negative (df_res : Pd.DataFrame) (ic_index : list Z)
    (ke energies : list float) :
  forall p g,
    penalty_not_negative p = true ->
    grouping_loop df_res ic_index ke energies p = Return g ->
    penalty_not_negative g = true.
Proof.
  induction energies as [|energy rest IH]; intros p g Hp; cbn [grouping_loop].
  - now intros [= <-].
  - destruct (group_term df_res ic_index ke energy) as [t|e] eqn:T;
      cbn [obind]; [|discriminate].
    apply IH, padd_not_negative; eauto using group_term_not_negative.
Qed.

Lemma grouping_penalty_not_negative (df_ic df_res : Pd.DataFrame) (g : penalty_value) :
  grouping_penalty df_ic df_res = Return g -> penalty_not_negative g = true.
Proof.
  unfold grouping_penalty.
  destruct (Pd.getitem df_ic "KE") as [[c|cs]|e]; cbn [obind]; try discriminate.
  apply grouping_loop_not_negative. reflexivity.
Qed.

Lemma monotonicity_loop_not_negative (voltages : list float) (p : penalty_value) :
  penalty_not_negative p = true ->
  penalty_not_negative (monotonicity_loop voltages p) = true.
Proof.
  rewrite monotonicity_loop_count.
  induction (count_increasing voltages) as [|k IH]; intros Hp; cbn [Nat.iter nat_rect].
  - exact Hp.
  - apply padd_not_negative; [now apply IH | reflexivity].
Qed.

Lemma cleared_path (path : string) (d : files) : cleared path d path = None.
Proof.
  unfold cleared. destruct (d path) eqn:E; [|exact E]. now rewrite String.eqb_refl.
Qed.

Lemma cleared_other (path p : string) (d : files) :
  p <> path -> cleared path d p = d p.
Proof.
  intros H. unfold cleared. destruct (d path); [|reflexivity].
  apply String.eqb_neq in H. now rewrite H.
Qed.

Section Steps.
Context {reader : FloatReader} {simion : Simion}.

Lemma fly_spec (workspace_filename rec_filename output_filename : string) (w : world) :
  fly workspace_filename rec_filename output_filename w
  = (Return tt,
     {| disk := simion_run (Fly (rec_filename ++ ".rec") (output_filename ++ ".txt")
                                (workspace_filename ++ ".iob"))
                  (cleared (output_filename ++ ".txt") (disk w));
        printed := printed w |}).
Proof.
  unfold fly, bind, path_exists, remove, ret, simion_command, cleared.
  destruct (disk w (output_filename ++ ".txt")) eqn:E; cbn [disk printed];
    rewrite ?E; reflexivity.
Qed.

Lemma vmi_cost_function_spec (v0 v1 : float) (rest : list float)
    (workspace_filename rec_filename data_filename : string) (w : world) :
  let voltages := v0 :: v1 :: rest in
  let d := results_disk v0 v1 workspace_filename rec_filename data_filename (disk w) in
  vmi_cost_function voltages workspace_filename rec_filename data_filename w
  = match match d (data_filename ++ ".txt") with
          | Some text => tables_of_text text
          | None => Raise (FileNotFoundError (data_filename ++ ".txt"))
          end with
    | Raise e => (Raise e, {| disk := d; printed := printed w |})
    | Return tables =>
        let w' := snd (rm_tmp {| disk := d; printed := printed w |}) in
        match grouping_penalty (fst tables) (snd tables) with
        | Raise e => (Raise e, w')
        | Return g =>
            (Return (monotonicity_loop voltages g),
             {| disk := disk w';
                printed := printed w ++ [monotonicity_loop voltages g] |})
        end
    end.
Proof.
  cbv zeta.
  unfold vmi_cost_function at 1. unfold bind at 1 2 3 4. unfold lift at 1 2.
  cbn [getitem_list nth_error].
  unfold simion_command at 1. cbv beta iota.
  rewrite fly_spec. cbv beta iota. unfold bind at 1.
  rewrite load_flight_data_spec. cbn [disk printed].
  fold (results_disk v0 v1 workspace_filename rec_filename data_filename (disk w)).
  destruct (match results_disk _ _ _ _ _ _ _ with Some _ => _ | None => _ end)
    as [[df_ic df_res]|e]; [|reflexivity].
  unfold bind, rm_tmp, lift, print, ret. cbn [fst snd disk printed].
  destruct (grouping_penalty df_ic df_res); reflexivity.
Qed.

End Steps.

Lemma getitem_missing (df : Pd.DataFrame) (label : string) :
  ~ In label (Pd.labels df) -> Pd.getitem df label = Raise (KeyError label).
Proof.
  intros H. unfold Pd.getitem.
  destruct (filter _ (Pd.columns df)) as [|lc rest] eqn:F; [reflexivity|].
  assert (Hin : In lc (filter (fun lc => String.eqb (fst lc) label) (Pd.columns df)))
    by (rewrite F; now left).
  apply filter_In in Hin as [Hin Heq]. apply String.eqb_eq in Heq.
  destruct H. rewrite <- Heq. unfold Pd.labels. now apply in_map.
Qed.

Section CallProperties.
Context {reader : FloatReader} {simion : Simion}.

(** X10. Over regular files that can be removed, [fly] takes the output file
    away when it is there and hands the rest to the simulator: the fly
    request runs on files where the output file is absent and every other
    file is as before, and [fly] prints nothing. *)
Theorem fly_clears_stale_output (workspace_filename rec_filename output_filename : string)
    (w : world) :
  exists d : files,
    fly workspace_filename rec_filename output_filename w
    = (Return tt,
       {| disk := simion_run (Fly (rec_filename ++ ".rec") (output_filename ++ ".txt")
                                  (workspace_filename ++ ".iob")) d;
          printed := printed w |})
    /\ d (output_filename ++ ".txt") = None
    /\ forall p, p <> output_filename ++ ".txt" -> d p = disk w p.
Proof.
  exists (cleared (output_filename ++ ".txt") (disk w)).
  split; [apply fly_spec|]. split; [apply cleared_path|].
  intros p. apply cleared_other.
Qed.

(** X11. With fewer than two voltages [vmi_cost_function] raises IndexError
    before the simulator is run: the state is left as it was. *)
Theorem vmi_cost_function_short_ladder (voltages : list float)
    (workspace_filename rec_filename data_filename : string) (w : world) :
  (List.length voltages < 2)%nat ->
  vmi_cost_function voltages workspace_filename rec_filename data_filename w
  = (Raise IndexError, w).
Proof.
  intros H. destruct voltages as [|v0 [|v1 rest]]; cbn in H; try lia; reflexivity.
Qed.

(** X12. Results of an earlier run are never read: when the fly run writes no
    output file, the call fails with FileNotFoundError, whatever was in the
    output file before. *)
Theorem vmi_cost_function_ignores_stale_results (voltages : list float)
    (workspace_filename rec_filename data_filename : string) (w : world) :
  (2 <= List.length voltages)%nat ->
  (forall d, d (data_filename ++ ".txt") = None ->
             simion_run (Fly (rec_filename ++ ".rec") (data_filename ++ ".txt")
                             (workspace_filename ++ ".iob")) d
                        (data_filename ++ ".txt") = None) ->
  fst (vmi_cost_function voltages workspace_filename rec_filename data_filename w)
  = Raise (FileNotFoundError (data_filename ++ ".txt")).
Proof.
  intros Hlen Hsim.
  destruct voltages as [|v0 [|v1 rest]]; cbn in Hlen; try lia.
  rewrite vmi_cost_function_spec. cbv zeta.
  unfold results_disk. rewrite Hsim by apply cleared_path. reflexivity.
Qed.

(** X13. A failure of the loader ends [vmi_cost_function] with the same
    exception; nothing is printed and the files stay as the simulator left
    them, the temporary ones included. *)
Theorem vmi_cost_function_passes_loader_failure (v0 v1 : float) (rest : list float)
    (workspace_filename rec_filename data_filename text : string) (w : world)
    (e : exn) :
  results_disk v0 v1 workspace_filename rec_filename data_filename (disk w)
    (data_filename ++ ".txt") = Some text ->
  tables_of_text text = Raise e ->
  vmi_cost_function (v0 :: v1 :: rest) workspace_filename rec_filename
    data_filename w
  = (Raise e,
     {| disk := results_disk v0 v1 workspace_filename rec_filename data_filename
                  (disk w);
        printed := printed w |}).
Proof.
  intros Hd Ht. rewrite vmi_cost_function_spec. cbv zeta. now rewrite Hd, Ht.
Qed.

(** X14. [vmi_cost_function] prints exactly the penalty it returns, after
    what was printed before, and prints nothing when it fails. *)
Theorem vmi_cost_function_prints_what_it_returns (voltages : list float)
    (workspace_filename rec_filename data_filename : string) (w : world) :
  let r := vmi_cost_function voltages workspace_filename rec_filename
             data_filename w in
  match fst r with
  | Return penalty => printed (snd r) = (printed w ++ [penalty])%list
  | Raise _ => printed (snd r) = printed w
  end.
Proof.
  cbv zeta.
  destruct voltages as [|v0 [|v1 rest]]; try reflexivity.
  rewrite vmi_cost_function_spec. cbv zeta.
  destruct (match results_disk _ _ _ _ _ _ _ with Some _ => _ | None => _ end)
    as [[df_ic df_res]|e]; [|reflexivity].
  cbn [fst snd]. destruct (grouping_penalty df_ic df_res); reflexivity.
Qed.

(** X15. A penalty [vmi_cost_function] returns is never below zero: it is zero
    or above, or not-a-number. *)
Theorem vmi_cost_function_never_negative (voltages : list float)
    (workspace_filename rec_filename data_filename : string) (w : world)
    (penalty : penalty_value) :
  fst (vmi_cost_function voltages workspace_filename rec_filename data_filename w)
  = Return penalty ->
  penalty_not_negative penalty = true.
Proof.
  destruct voltages as [|v0 [|v1 rest]]; try discriminate.
  rewrite vmi_cost_function_spec. cbv zeta.
  destruct (match results_disk _ _ _ _ _ _ _ with Some _ => _ | None => _ end)
    as [[df_ic df_res]|e]; [|discriminate].
  cbn [fst snd].
  destruct (grouping_penalty df_ic df_res) as [g|e] eqn:G; [|discriminate].
  intros [= <-].
  apply monotonicity_loop_not_negative.
  exact (grouping_penalty_not_negative _ _ _ G).
Qed.

(** X16. When no name of the header scan is KE, as when KE is the last field
    of a terminated header line, [vmi_cost_function] fails with KeyError for
    KE on a file that is well-formed otherwise. *)
Theorem vmi_cost_function_needs_KE (v0 v1 : float) (rest : list float)
    (workspace_filename rec_filename data_filename text : string) (w : world)
    (body : list (list float)) :
  results_disk v0 v1 workspace_filename rec_filename data_filename (disk w)
    (data_filename ++ ".txt") = Some text ->
  well_formed text body ->
  (2 <= List.length body)%nat ->
  ~ In "KE" (header_scan (Py.readlines text)) ->
  fst (vmi_cost_function (v0 :: v1 :: rest) workspace_filename rec_filename
         data_filename w)
  = Raise (KeyError "KE").
Proof.
  intros Hd Hwf Hlen Hke. rewrite vmi_cost_function_spec. cbv zeta.
  rewrite Hd, (tables_of_well_formed _ _ Hwf Hlen). cbn [fst snd].
  unfold grouping_penalty. rewrite getitem_missing; [reflexivity|].
  rewrite expected_table_labels. intros [H|H]; [discriminate|contradiction].
Qed.

End CallProperties.

(** ** Header lines of quoted names *)

Lemma contains_chr_cons (c a : ascii) (s : string) :
  Py.contains (Py.chr c) (String a s)
  = Ascii.eqb c a || Py.contains (Py.chr c) s.
Proof. cbn. now rewrite andb_true_r. Qed.

Lemma contains_chr_append (c : ascii) (s t : string) :
  Py.contains (Py.chr c) (s ++ t)
  = Py.contains (Py.chr c) s || Py.contains (Py.chr c) t.
Proof.
  induction s as [|a s IH].
  - cbn [append]. destruct t; reflexivity.
  - cbn [append]. rewrite !contains_chr_cons, IH. now rewrite orb_assoc.
Qed.

Lemma split_plain (sep : ascii) (s : string) :
  Py.contains (Py.chr sep) s = false -> Py.split sep s = [s].
Proof.
  induction s as [|a s IH]; [reflexivity|].
  rewrite contains_chr_cons. intros H. apply orb_false_elim in H as [Ha Hs].
  cbn [Py.split]. rewrite Ascii.eqb_sym, Ha, (IH Hs). reflexivity.
Qed.

Lemma split_append (sep : ascii) (s t : string) :
  Py.contains (Py.chr sep) s = false ->
  Py.split sep (s ++ String sep t) = s :: Py.split sep t.
Proof.
  induction s as [|a s IH]; intros H.
  - cbn [append Py.split]. now rewrite Ascii.eqb_refl.
  - rewrite contains_chr_cons in H. apply orb_false_elim in H as [Ha Hs].
    cbn [append Py.split]. rewrite Ascii.eqb_sym, Ha, (IH Hs). reflexivity.
Qed.

Lemma append_assoc (s t u : string) : (s ++ t) ++ u = s ++ (t ++ u).
Proof. induction s as [|a s IH]; cbn; [reflexivity|]. now rewrite IH. Qed.

(** Joining fields without a separator in them and splitting again gives the
    fields, with what follows the line on the last of them. *)
Lemma split_concat (sep : ascii) (fields : list string) (tail : string) :
  fields <> [] ->
  forallb (fun f => negb (Py.contains (Py.chr sep) f)) fields = true ->
  Py.contains (Py.chr sep) tail = false ->
  Py.split sep (String.concat (Py.chr sep) fields ++ tail)
  = (removelast fields ++ [String.append (last fields EmptyString) tail])%list.
Proof.
  intros Hne Hf Ht.
  induction fields as [|f fields IH]; [contradiction|].
  cbn [forallb] in Hf. apply andb_prop in Hf as [Hf Hrest].
  apply negb_true_iff in Hf.
  destruct fields as [|g fields].
  - cbn [String.concat removelast last app].
    apply split_plain. now rewrite contains_chr_append, Hf, Ht.
  - change (String.concat (Py.chr sep) (f :: g :: fields))
      with (f ++ Py.chr sep ++ String.concat (Py.chr sep) (g :: fields)).
    rewrite append_assoc. cbn [Py.chr append].
    rewrite (split_append sep f _ Hf), IH by (try discriminate; assumption).
    reflexivity.
Qed.

Lemma quoted_without (sep : ascii) (name : string) :
  Ascii.eqb sep Py.DQ = false ->
  Py.contains (Py.chr sep) name = false ->
  Py.contains (Py.chr sep) (Py.quoted name) = false.
Proof.
  intros Hq Hn. unfold Py.quoted.
  rewrite contains_chr_cons, contains_chr_append, Hq, Hn.
  unfold Py.chr at 2. rewrite contains_chr_cons, Hq. reflexivity.
Qed.

Lemma last_map {A B} (f : A -> B) (xs : list A) (a : A) :
  xs <> [] -> last (map f xs) (f a) = f (last xs a).
Proof.
  induction xs as [|x [|y xs] IH]; intros H; [contradiction|reflexivity|].
  change (last (map f (x :: y :: xs)) (f a)) with (last (map f (y :: xs)) (f a)).
  change (last (x :: y :: xs) a) with (last (y :: xs) a).
  apply IH. discriminate.
Qed.

Lemma removelast_map {A B} (f : A -> B) (xs : list A) :
  removelast (map f xs) = map f (removelast xs).
Proof.
  induction xs as [|x [|y xs] IH]; try reflexivity.
  change (removelast (map f (x :: y :: xs)))
    with (f x :: removelast (map f (y :: xs))).
  now rewrite IH.
Qed.

Lemma last_default {A} (xs : list A) (a b : A) :
  xs <> [] -> last xs a = last xs b.
Proof.
  induction xs as [|x [|y xs] IH]; intros H; [contradiction|reflexivity|].
  apply IH. discriminate.
Qed.

Lemma quoted_fields (names : list string) :
  forallb (fun n => negb (Py.contains (Py.chr Py.COMMA) n)) names = true ->
  forallb (fun f => negb (Py.contains (Py.chr Py.COMMA) f)) (map Py.quoted names)
  = true.
Proof.
  intros H. rewrite forallb_forall in *. intros f Hf.
  apply in_map_iff in Hf as (n & <- & Hn).
  specialize (H n Hn). apply negb_true_iff in H.
  now rewrite quoted_without.
Qed.

(** X1. A header line of quoted names without a comma in them, ended by a
    line terminator: the scan gives every name but the last as it is, and the
    last name with its closing quote left on. *)
Theorem header_scan_terminated_line (pre post names : list string) :
  names <> [] ->
  forallb (fun n => negb (Py.contains (Py.chr Py.COMMA) n)) names = true ->
  forallb (fun l => negb (Py.contains marker l)) pre = true ->
  Py.contains marker
    (String.concat (Py.chr Py.COMMA) (map Py.quoted names) ++ Py.chr Py.LF) = true ->
  header_scan
    (pre ++ String.append (String.concat (Py.chr Py.COMMA) (map Py.quoted names))
                          (Py.chr Py.LF)
         :: post)%list
  = (removelast names ++ [String.append (last names EmptyString) (Py.chr Py.DQ)])%list.
Proof.
  intros Hne Hcomma Hpre Hmark.
  rewrite (header_scan_stops pre post _ Hpre Hmark), strip_fields_map.
  rewrite split_concat; [| now destruct names | now apply quoted_fields | reflexivity].
  rewrite map_app, removelast_map, map_map. cbn [map].
  rewrite (last_default _ EmptyString (Py.quoted EmptyString)) by now destruct names.
  rewrite last_map by exact Hne.
  rewrite slice_quoted_terminated. f_equal.
  rewrite <- (map_id (removelast names)) at 2.
  apply map_ext. intros n. apply slice_quoted.
Qed.

(** X2. The same header line as the last line of the file, without a
    terminator: the scan gives the names exactly. *)
Theorem header_scan_last_line (pre names : list string) :
  names <> [] ->
  forallb (fun n => negb (Py.contains (Py.chr Py.COMMA) n)) names = true ->
  forallb (fun l => negb (Py.contains marker l)) pre = true ->
  Py.contains marker (String.concat (Py.chr Py.COMMA) (map Py.quoted names)) = true ->
  header_scan (pre ++ [String.concat (Py.chr Py.COMMA) (map Py.quoted names)])%list
  = names.
Proof.
  intros Hne Hcomma Hpre Hmark.
  rewrite (header_scan_stops pre [] _ Hpre Hmark), strip_fields_map.
  assert (E : String.concat (Py.chr Py.COMMA) (map Py.quoted names)
              = String.concat (Py.chr Py.COMMA) (map Py.quoted names) ++ EmptyString).
  { generalize (String.concat (Py.chr Py.COMMA) (map Py.quoted names)).
    intros s. induction s as [|a s IH]; cbn; [reflexivity|]. now rewrite <- IH. }
  rewrite E, split_concat; [| now destruct names | now apply quoted_fields | reflexivity].
  assert (A : forall s, s ++ EmptyString = s).
  { intros s. induction s as [|a s IH]; cbn; [reflexivity|]. now rewrite IH. }
  rewrite A, <- app_removelast_last by now destruct names.
  rewrite map_map. rewrite <- (map_id names) at 2.
  apply map_ext. intros n. apply slice_quoted.
Qed.

(** ** What every loaded pair of tables satisfies *)

Lemma labels_take_rows (f : forall A, list A -> list A) (df : Pd.DataFrame) :
  Pd.labels (Pd.take_rows f df) = Pd.labels df.
Proof.
  unfold Pd.labels, Pd.take_rows. cbn [Pd.columns]. rewrite map_map.
  now apply map_ext.
Qed.

Lemma of_rows_inv (rows : list (list float)) (ncols : nat) (names : list string)
    (df : Pd.DataFrame) :
  Pd.of_rows rows ncols names = Return df ->
  Pd.labels df = names
  /\ Pd.index df = Pd.range (List.length rows)
  /\ Forall (fun lc => Pd.col_length (snd lc) = List.length rows) (Pd.columns df).
Proof.
  unfold Pd.of_rows. destruct (Nat.eqb_spec ncols (List.length names)) as [E|_];
    [|discriminate].
  intros [= <-]. unfold Pd.labels. cbn [Pd.columns Pd.index].
  split; [|split; [reflexivity|]].
  - apply map_fst_combine. now rewrite length_map, length_seq.
  - apply Forall_forall. intros [l c] Hin.
    apply in_combine_r, in_map_iff in Hin as (j & <- & _).
    cbn [snd]. unfold Pd.column_of. cbn [Pd.col_length]. apply length_map.
Qed.

Lemma frame_inv (data : Np.ndarray) (names : list string) (df : Pd.DataFrame) :
  Pd.frame data names = Return df ->
  Pd.labels df = names
  /\ Pd.index df = Pd.range (Pd.nrows df)
  /\ Forall (fun lc => Pd.col_length (snd lc) = Pd.nrows df) (Pd.columns df).
Proof.
  intros H.
  assert (G : exists rows ncols, Pd.of_rows rows ncols names = Return df).
  { destruct data; cbn [Pd.frame] in H; [discriminate| |]; eauto. }
  destruct G as (rows & ncols & G).
  destruct (of_rows_inv _ _ _ _ G) as (H1 & H2 & H3).
  unfold Pd.nrows. rewrite H2, range_length. auto.
Qed.

Lemma step2_inv (start : nat) (df : Pd.DataFrame) :
  Forall (fun lc => Pd.col_length (snd lc) = Pd.nrows df) (Pd.columns df) ->
  Forall (fun lc => Pd.col_length (snd lc) = Pd.nrows (Pd.step2 start df))
         (Pd.columns (Pd.step2 start df)).
Proof.
  intros H. unfold Pd.step2, Pd.take_rows, Pd.nrows. cbn [Pd.columns Pd.index].
  apply Forall_forall. intros lc Hin.
  apply in_map_iff in Hin as ([l c] & <- & Hin). cbn [fst snd].
  rewrite Forall_forall in H. specialize (H _ Hin). cbn [snd] in H.
  unfold Pd.nrows in H.
  rewrite every_other_length, length_skipn, <- H.
  destruct c; cbn [Pd.col_map Pd.col_length];
    now rewrite every_other_length, length_skipn.
Qed.

Lemma reset_index_inv (df df' : Pd.DataFrame) :
  Pd.reset_index df = Return df' ->
  exists name,
    Pd.columns df' = (name, Pd.Int64 (Pd.index df)) :: Pd.columns df
    /\ Pd.index df' = Pd.range (Pd.nrows df)
    /\ name = (if Pd.has_label "index" df then "level_0" else "index")
    /\ Pd.has_label name df = false.
Proof.
  unfold Pd.reset_index.
  set (name := if Pd.has_label "index" df then "level_0" else "index").
  destruct (Pd.has_label name df) eqn:E; [discriminate|].
  intros [= <-]. exists name. cbn [Pd.columns Pd.index]. auto.
Qed.

Section Invariants.
Context {reader : FloatReader}.

Lemma tables_of_text_inv (text : string) (df_ic df_res : Pd.DataFrame) :
  tables_of_text text = Return (df_ic, df_res) ->
  exists df,
    Pd.labels df = header_scan (Py.readlines text)
    /\ Pd.index df = Pd.range (Pd.nrows df)
    /\ Forall (fun lc => Pd.col_length (snd lc) = Pd.nrows df) (Pd.columns df)
    /\ Pd.reset_index (Pd.step2 0 df) = Return df_ic
    /\ Pd.reset_index (Pd.step2 1 df) = Return df_res.
Proof.
  unfold tables_of_text.
  destruct (Np.loadtxt text 12) as [data|e]; cbn [obind]; [|discriminate].
  destruct (Pd.frame data _) as [df|e] eqn:F; cbn [obind]; [|discriminate].
  destruct (Pd.reset_index (Pd.step2 0 df)) as [ic|e] eqn:R0; cbn [obind];
    [|discriminate].
  destruct (Pd.reset_index (Pd.step2 1 df)) as [fc|e] eqn:R1; cbn [obind];
    [|discriminate].
  intros [= <- <-]. exists df.
  destruct (frame_inv _ _ _ F) as (H1 & H2 & H3). auto.
Qed.

Lemma tables_of_text_invariant (text : string)
    (initial_table final_table : Pd.DataFrame) :
  tables_of_text text = Return (initial_table, final_table) ->
  Pd.labels initial_table = Pd.labels final_table
  /\ tl (Pd.labels initial_table) = header_scan (Py.readlines text)
  /\ (Pd.nrows initial_table = Pd.nrows final_table
      \/ Pd.nrows initial_table = S (Pd.nrows final_table))
  /\ Pd.index initial_table = Pd.range (Pd.nrows initial_table)
  /\ Pd.index final_table = Pd.range (Pd.nrows final_table)
  /\ Forall (fun lc => Pd.col_length (snd lc) = Pd.nrows initial_table)
            (Pd.columns initial_table)
  /\ Forall (fun lc => Pd.col_length (snd lc) = Pd.nrows final_table)
            (Pd.columns final_table).
Proof.
  intros Htab.
  destruct (tables_of_text_inv _ _ _ Htab) as (df & Hlab & Hidx & Hcols & R0 & R1).
  destruct (reset_index_inv _ _ R0) as (n0 & C0 & I0 & N0 & _).
  destruct (reset_index_inv _ _ R1) as (n1 & C1 & I1 & N1 & _).
  assert (L0 : Pd.nrows initial_table = Nat.div2 (S (Pd.nrows df))).
  { unfold Pd.nrows at 1. rewrite I0, range_length.
    unfold Pd.nrows, Pd.step2, Pd.take_rows. cbn [Pd.index].
    now rewrite every_other_length, length_skipn, Nat.sub_0_r. }
  assert (L1 : Pd.nrows final_table = Nat.div2 (Pd.nrows df)).
  { unfold Pd.nrows at 1. rewrite I1, range_length.
    unfold Pd.nrows, Pd.step2, Pd.take_rows. cbn [Pd.index].
    rewrite every_other_length, length_skipn.
    destruct (List.length (Pd.index df)); [reflexivity|].
    now rewrite Nat.sub_succ, Nat.sub_0_r. }
  assert (S0 : Pd.nrows initial_table = Pd.nrows (Pd.step2 0 df))
    by (unfold Pd.nrows at 1; now rewrite I0, range_length).
  assert (S1 : Pd.nrows final_table = Pd.nrows (Pd.step2 1 df))
    by (unfold Pd.nrows at 1; now rewrite I1, range_length).
  assert (Hn : n0 = n1).
  { rewrite N0, N1. unfold Pd.has_label, Pd.step2. now rewrite !labels_take_rows. }
  repeat split.
  - unfold Pd.labels. rewrite C0, C1, Hn. cbn [map fst]. f_equal.
    change (Pd.labels (Pd.step2 0 df) = Pd.labels (Pd.step2 1 df)).
    unfold Pd.step2. now rewrite !labels_take_rows.
  - unfold Pd.labels. rewrite C0. cbn [map tl].
    change (Pd.labels (Pd.step2 0 df) = header_scan (Py.readlines text)).
    unfold Pd.step2. now rewrite labels_take_rows.
  - rewrite L0, L1, !Nat.div2_div.
    generalize (Pd.nrows df). intros k.
    pose proof (Nat.div_mod_eq k 2). pose proof (Nat.div_mod_eq (S k) 2).
    pose proof (Nat.mod_upper_bound k 2). pose proof (Nat.mod_upper_bound (S k) 2).
    lia.
  - now rewrite I0, S0.
  - now rewrite I1, S1.
  - rewrite C0. constructor.
    + cbn [snd Pd.col_length]. now rewrite S0.
    + rewrite S0. now apply step2_inv.
  - rewrite C1. constructor.
    + cbn [snd Pd.col_length]. now rewrite S1.
    + rewrite S1. now apply step2_inv.
Qed.

(** X3. Whenever [load_flight_data] returns, the two tables carry the same
    labels, the header names behind one added column; the initial table has
    as many rows as the final one or one more; the rows of each are labelled
    from 0; and every column is as long as its table. *)
Theorem load_flight_data_tables_invariant (output_filename text : string)
    (w : world) (initial_table final_table : Pd.DataFrame) :
  disk w (output_filename ++ ".txt") = Some text ->
  fst (load_flight_data output_filename w) = Return (initial_table, final_table) ->
  Pd.labels initial_table = Pd.labels final_table
  /\ tl (Pd.labels initial_table) = header_scan (Py.readlines text)
  /\ (Pd.nrows initial_table = Pd.nrows final_table
      \/ Pd.nrows initial_table = S (Pd.nrows final_table))
  /\ Pd.index initial_table = Pd.range (Pd.nrows initial_table)
  /\ Pd.index final_table = Pd.range (Pd.nrows final_table)
  /\ Forall (fun lc => Pd.col_length (snd lc) = Pd.nrows initial_table)
            (Pd.columns initial_table)
  /\ Forall (fun lc => Pd.col_length (snd lc) = Pd.nrows final_table)
            (Pd.columns final_table).
Proof.
  intros Hdisk. rewrite load_flight_data_spec, Hdisk. cbn [fst].
  apply tables_of_text_invariant.
Qed.

End Invariants.

(** ** What the numbers of a file depend on *)

Section Rows.
Context {reader : FloatReader}.

Lemma read_rows_skips (lines : list string) (ncols : option nat) :
  Np.read_rows ncols lines
  = Np.read_rows ncols
      (filter (fun l => negb (Nat.eqb (List.length (Np.fields l)) 0)) lines).
Proof.
  revert ncols. induction lines as [|line lines IH]; intros ncols; [reflexivity|].
  cbn [filter]. destruct (Np.fields line) as [|t ts] eqn:F.
  - cbn [Np.read_rows]. rewrite F. cbn [List.length Nat.eqb negb]. apply IH.
  - cbn [List.length Nat.eqb negb Np.read_rows]. rewrite F.
    destruct (match ncols with Some c => _ | None => _ end); [reflexivity|].
    destruct (Np.convert (t :: ts)); cbn [obind]; [|reflexivity].
    now rewrite IH.
Qed.

Lemma read_rows_fields (lines lines' : list string) :
  map Np.fields lines = map Np.fields lines' ->
  forall ncols, Np.read_rows ncols lines = Np.read_rows ncols lines'.
Proof.
  revert lines'. induction lines as [|line lines IH]; intros [|line' lines'] H ncols;
    try discriminate; [reflexivity|].
  cbn [map] in H. injection H as Hf Hrest.
  cbn [Np.read_rows]. rewrite <- Hf.
  destruct (Np.fields line) as [|t ts]; [now apply IH|].
  destruct (match ncols with Some c => _ | None => _ end); [reflexivity|].
  destruct (Np.convert (t :: ts)); cbn [obind]; [|reflexivity].
  now rewrite (IH lines' Hrest).
Qed.

Lemma data_rows_filter (lines : list string) :
  filter (fun toks => negb (Nat.eqb (List.length toks) 0)) (map Np.fields lines)
  = map Np.fields
      (filter (fun l => negb (Nat.eqb (List.length (Np.fields l)) 0)) lines).
Proof.
  induction lines as [|line lines IH]; [reflexivity|].
  cbn [map filter]. destruct (negb _); cbn [map]; now rewrite IH.
Qed.

Lemma loadtxt_data_rows (text text' : string) :
  data_rows text = data_rows text' ->
  Np.loadtxt text 12 = Np.loadtxt text' 12.
Proof.
  unfold data_rows, Np.loadtxt. rewrite !data_rows_filter. intros H.
  rewrite (read_rows_skips (skipn 12 (Py.readlines text))).
  rewrite (read_rows_skips (skipn 12 (Py.readlines text'))).
  now rewrite (read_rows_fields _ _ H).
Qed.

(** X4. What [load_flight_data] returns depends on the file only through the
    names of the header scan and through the fields of the lines with
    content from line offset 12 on: banners, empty lines and comments make no
    difference. *)
Theorem load_flight_data_reads_names_and_rows (output_filename text text' : string)
    (w w' : world) :
  disk w (output_filename ++ ".txt") = Some text ->
  disk w' (output_filename ++ ".txt") = Some text' ->
  header_scan (Py.readlines text) = header_scan (Py.readlines text') ->
  data_rows text = data_rows text' ->
  fst (load_flight_data output_filename w) = fst (load_flight_data output_filename w').
Proof.
  intros Hd Hd' Hnames Hrows.
  rewrite !load_flight_data_spec, Hd, Hd'. cbn [fst].
  unfold tables_of_text. now rewrite Hnames, (loadtxt_data_rows _ _ Hrows).
Qed.

Lemma read_rows_ragged (lines : list string) (c : nat) :
  Exists (fun toks => List.length toks <> c)
    (filter (fun toks => negb (Nat.eqb (List.length toks) 0)) (map Np.fields lines)) ->
  exists e, Np.read_rows (Some c) lines = Raise e.
Proof.
  induction lines as [|line lines IH]; cbn [map filter Np.read_rows]; intros H.
  - inversion H.
  - destruct (Np.fields line) as [|t ts]; cbn [List.length Nat.eqb negb] in H;
      [now apply IH|].
    cbv zeta.
    destruct (Nat.eqb_spec (List.length (t :: ts)) c) as [E|E]; cbn [negb].
    + destruct (Np.convert (t :: ts)); cbn [obind]; [|eauto].
      inversion H as [? ? Hne|? ? Hrest]; subst; [contradiction|].
      destruct (IH Hrest) as [e ->]. cbn [obind]. eauto.
    + eauto.
Qed.

Lemma read_rows_first (lines : list string) (first : list string)
    (rest : list (list string)) :
  filter (fun toks => negb (Nat.eqb (List.length toks) 0)) (map Np.fields lines)
  = first :: rest ->
  Exists (fun toks => List.length toks <> List.length first) rest ->
  exists e, Np.read_rows None lines = Raise e.
Proof.
  induction lines as [|line lines IH]; cbn [map filter Np.read_rows]; intros H Hbad.
  - discriminate.
  - destruct (Np.fields line) as [|t ts]; cbn [List.length Nat.eqb negb] in H;
      [now apply IH|].
    injection H as <- Hrest.
    destruct (Np.convert (t :: ts)); cbn [obind]; [|eauto].
    rewrite <- Hrest in Hbad.
    destruct (read_rows_ragged _ _ Hbad) as [e ->]. cbn [obind]. eauto.
Qed.

(** X5. A body row with another number of fields than the first body row
    makes the call fail with the ValueError of [np.loadtxt]. *)
Theorem ragged_rows_raise_value_error (output_filename text : string) (w : world)
    (first : list string) (rest : list (list string)) :
  disk w (output_filename ++ ".txt") = Some text ->
  data_rows text = first :: rest ->
  Exists (fun toks => List.length toks <> List.length first) rest ->
  exists e, fst (load_flight_data output_filename w) = Raise e
            /\ loadtxt_error e.
Proof.
  intros Hdisk Hrows Hbad.
  rewrite load_flight_data_spec, Hdisk. cbn [fst].
  unfold tables_of_text, Np.loadtxt.
  destruct (read_rows_first _ _ _ Hrows Hbad) as [e R].
  rewrite R. cbn [obind]. exists e. split; [reflexivity|].
  exact (read_rows_raises _ _ _ R).
Qed.

Lemma frame_width_mismatch (body : list (list float)) (names : list string) (c : nat) :
  (2 <= List.length body)%nat ->
  Forall (fun row => List.length row = c) body ->
  (1 <= c)%nat ->
  List.length names <> c ->
  Pd.frame (Np.squeeze body) names
  = Raise (ValueError (ShapeMismatch (List.length body, c)
                                     (List.length body, List.length names))).
Proof.
  intros Hlen Hwidth Hc Hnames.
  destruct body as [|r1 [|r2 rest]]; simpl in Hlen; try lia.
  pose proof (Forall_inv Hwidth) as H1. simpl in H1.
  destruct r1 as [|x [|y r1]]; simpl in H1; try lia.
  - subst c. cbn [Np.squeeze Pd.frame]. unfold Pd.of_rows.
    rewrite (singleton_rows _ Hwidth).
    destruct (Nat.eqb_spec 1 (List.length names)); [congruence|reflexivity].
  - cbn [Np.squeeze Pd.frame hd]. unfold Pd.of_rows.
    change (List.length (x :: y :: r1)) with (S (S (List.length r1))).
    rewrite H1.
    destruct (Nat.eqb_spec c (List.length names)); [congruence|reflexivity].
Qed.

(** X6. At least two body rows of [c] numbers each under a header of another
    number of names: the call fails with the ValueError of the table
    constructor about the two shapes. *)
Theorem header_width_mismatch_raises (output_filename text : string) (w : world)
    (body : list (list float)) (c : nat) :
  disk w (output_filename ++ ".txt") = Some text ->
  Forall2 numbers (data_rows text) body ->
  Forall (fun row => List.length row = c) body ->
  (2 <= List.length body)%nat ->
  List.length (header_scan (Py.readlines text)) <> c ->
  fst (load_flight_data output_filename w)
  = Raise (ValueError
             (ShapeMismatch (List.length body, c)
                (List.length body, List.length (header_scan (Py.readlines text))))).
Proof.
  intros Hdisk Hrows Hwidth Hlen Hnames.
  rewrite load_flight_data_spec, Hdisk. cbn [fst].
  unfold tables_of_text, Np.loadtxt.
  rewrite (read_rows_numbers _ body c None Hrows Hwidth (or_introl eq_refl)).
  cbn [obind].
  assert (Hc : (1 <= c)%nat).
  { pose proof (data_rows_nonempty _ _ Hrows) as Hne.
    destruct body as [|row body]; [simpl in Hlen; lia|].
    apply Forall_inv in Hne, Hwidth. lia. }
  now rewrite (frame_width_mismatch body _ c Hlen Hwidth Hc Hnames).
Qed.

(** X7. A file with one body row only, well-formed otherwise, is refused with
    a ValueError: the array of one row has lost an axis. *)
Theorem single_row_raises_value_error (output_filename text : string) (w : world)
    (row : list float) :
  disk w (output_filename ++ ".txt") = Some text ->
  well_formed text [row] ->
  exists why, fst (load_flight_data output_filename w) = Raise (ValueError why).
Proof.
  intros Hdisk [Hrows Hwidth _ _].
  rewrite load_flight_data_spec, Hdisk. cbn [fst].
  unfold tables_of_text, Np.loadtxt.
  rewrite (read_rows_numbers _ [row] _ None Hrows Hwidth (or_introl eq_refl)).
  cbn [obind].
  pose proof (data_rows_nonempty _ _ Hrows) as Hne.
  apply Forall_inv in Hne, Hwidth.
  destruct row as [|x [|y row]]; [simpl in Hne; lia| |].
  - cbn. eauto.
  - cbn [Np.squeeze Pd.frame]. unfold Pd.of_rows. rewrite <- Hwidth. cbn. eauto.
Qed.

End Rows.

Lemma has_label_true (l : string) (df : Pd.DataFrame) :
  In l (Pd.labels df) -> Pd.has_label l df = true.
Proof.
  intros H. unfold Pd.has_label. apply existsb_exists.
  exists l. split; [exact H | apply String.eqb_refl].
Qed.

Section Names.
Context {reader : FloatReader}.

Lemma tables_of_parsed (text : string) (body : list (list float)) :
  Forall2 numbers (data_rows text) body ->
  Forall (fun row => List.length row
                     = List.length (header_scan (Py.readlines text))) body ->
  (2 <= List.length body)%nat ->
  exists df0 df1,
    Pd.labels df0 = header_scan (Py.readlines text)
    /\ Pd.labels df1 = header_scan (Py.readlines text)
    /\ tables_of_text text
       = (let! initial_conditions := Pd.reset_index df0 in
          let! final_conditions := Pd.reset_index df1 in
          Return (initial_conditions, final_conditions)).
Proof.
  intros Hrows Hwidth Hlen.
  set (names := header_scan (Py.readlines text)) in *.
  assert (Hc : (1 <= List.length names)%nat).
  { pose proof (data_rows_nonempty _ _ Hrows) as Hne.
    destruct body as [|row body]; [simpl in Hlen; lia|].
    apply Forall_inv in Hne, Hwidth. lia. }
  unfold tables_of_text, Np.loadtxt. fold names.
  rewrite (read_rows_numbers _ body (List.length names) None Hrows Hwidth
             (or_introl eq_refl)).
  cbn [obind].
  rewrite (frame_squeeze body names (List.length names) Hlen Hwidth Hc eq_refl).
  cbn [obind]. rewrite !step2_columns.
  eexists _, _. split; [|split; [|reflexivity]];
    unfold Pd.labels; cbn [Pd.columns];
    apply map_fst_combine; now rewrite length_map, length_seq.
Qed.

(** X8. When a name of the header is index, the column of positions is named
    level_0 in both tables, and when level_0 is a name of the header too the
    call fails with a ValueError. *)
Theorem header_name_index_gives_level_0 (output_filename text : string) (w : world)
    (body : list (list float)) :
  disk w (output_filename ++ ".txt") = Some text ->
  Forall2 numbers (data_rows text) body ->
  Forall (fun row => List.length row
                     = List.length (header_scan (Py.readlines text))) body ->
  (2 <= List.length body)%nat ->
  In "index" (header_scan (Py.readlines text)) ->
  (~ In "level_0" (header_scan (Py.readlines text)) ->
   exists initial_table final_table,
     fst (load_flight_data output_filename w) = Return (initial_table, final_table)
     /\ Pd.labels initial_table = "level_0" :: header_scan (Py.readlines text)
     /\ Pd.labels final_table = "level_0" :: header_scan (Py.readlines text))
  /\ (In "level_0" (header_scan (Py.readlines text)) ->
      fst (load_flight_data output_filename w)
      = Raise (ValueError (CannotInsert "level_0"))).
Proof.
  intros Hdisk Hrows Hwidth Hlen Hidx.
  rewrite load_flight_data_spec, Hdisk. cbn [fst].
  destruct (tables_of_parsed text body Hrows Hwidth Hlen)
    as (df0 & df1 & L0 & L1 & ->).
  assert (I0 : Pd.has_label "index" df0 = true) by (apply has_label_true; now rewrite L0).
  assert (I1 : Pd.has_label "index" df1 = true) by (apply has_label_true; now rewrite L1).
  unfold Pd.reset_index. rewrite I0, I1. split.
  - intros Hno.
    rewrite !has_label_false by (rewrite ?L0, ?L1; exact Hno).
    cbn [obind]. eexists _, _. split; [reflexivity|].
    unfold Pd.labels in *. cbn [Pd.columns map fst]. now rewrite L0, L1.
  - intros Hyes.
    rewrite (has_label_true "level_0" df0) by now rewrite L0.
    reflexivity.
Qed.

Lemma tables_of_text_raises (text : string) (e : exn) :
  tables_of_text text = Raise e -> exists why, e = ValueError why.
Proof.
  unfold tables_of_text, Np.loadtxt.
  destruct (Np.read_rows None _) as [rows|e'] eqn:R; cbn [obind].
  - assert (F : forall data names, Pd.frame data names = Raise e ->
                                   exists why, e = ValueError why).
    { intros data names.
      destruct data; cbn [Pd.frame]; unfold Pd.of_rows;
        try (destruct (Nat.eqb _ _); [discriminate|]); intros [= <-]; eauto. }
    destruct (Pd.frame (Np.squeeze rows) _) as [df|e'] eqn:Fr; cbn [obind];
      [|intros [= <-]; eapply F; exact Fr].
    assert (G : forall d, Pd.reset_index d = Raise e -> exists why, e = ValueError why).
    { intros d. unfold Pd.reset_index.
      destruct (Pd.has_label _ d); [|discriminate]. intros [= <-]. eauto. }
    destruct (Pd.reset_index (Pd.step2 0 df)) as [ic|e'] eqn:R0; cbn [obind];
      [|intros [= <-]; eapply G; eauto].
    destruct (Pd.reset_index (Pd.step2 1 df)) as [fc|e'] eqn:R1; cbn [obind];
      [discriminate|intros [= <-]; eapply G; eauto].
  - intros [= <-].
    destruct (read_rows_raises _ _ _ R) as [-> | (tok & _ & ->)]; eauto.
Qed.

(** X9. [load_flight_data] fails in two ways only: with FileNotFoundError for
    its file, or with a ValueError. *)
Theorem load_flight_data_failures (output_filename : string) (w : world) (e : exn) :
  fst (load_flight_data output_filename w) = Raise e ->
  e = FileNotFoundError (output_filename ++ ".txt")
  \/ exists why, e = ValueError why.
Proof.
  rewrite load_flight_data_spec. cbn [fst].
  destruct (disk w (output_filename ++ ".txt")) as [text|].
  - intros H. right. exact (tables_of_text_raises _ _ H).
  - intros [= <-]. now left.
Qed.

End Names.

(** ** How [vmi_cost_function] can fail *)

Lemma align_total (m : Pd.mask) (idx : list Z) :
  (forall l, In l idx -> In l (map fst m)) ->
  exists bs, Pd.align m idx = Return bs.
Proof.
  induction idx as [|l idx IH]; intros H; cbn [Pd.align]; [eauto|].
  destruct (find (fun lb => Z.eqb (fst lb) l) m) as [lb|] eqn:F.
  - destruct IH as [bs ->]; [intros l' Hl'; apply H; now right|].
    cbn [obind]. eauto.
  - assert (Hin : In l (map fst m)) by (apply H; now left).
    apply in_map_iff in Hin as (lb & E & Hin).
    pose proof (find_none _ _ F lb Hin) as N. cbn beta in N.
    rewrite E, Z.eqb_refl in N. discriminate.
Qed.

Lemma getitem_raises (df : Pd.DataFrame) (label : string) (e : exn) :
  Pd.getitem df label = Raise e -> e = KeyError label.
Proof.
  unfold Pd.getitem.
  destruct (filter _ (Pd.columns df)) as [|lc [|lc' rest]]; try discriminate.
  now intros [= <-].
Qed.

Lemma to_float64_length (c : Pd.column) :
  List.length (Pd.to_float64 c) = Pd.col_length c.
Proof. destruct c; cbn [Pd.to_float64 Pd.col_length]; [apply length_map|reflexivity]. Qed.

Lemma range_In_le (n m : nat) (l : Z) :
  (n <= m)%nat -> In l (Pd.range n) -> In l (Pd.range m).
Proof.
  unfold Pd.range. intros H Hin.
  apply in_map_iff in Hin as (i & <- & Hi). apply in_seq in Hi.
  apply in_map, in_seq. lia.
Qed.

Lemma grouping_loop_raises (df_res : Pd.DataFrame) (ic_index : list Z)
    (ke energies : list float) :
  (forall l, In l (Pd.index df_res) -> In l ic_index) ->
  List.length ke = List.length ic_index ->
  forall p e, grouping_loop df_res ic_index ke energies p = Raise e ->
              e = KeyError "Y".
Proof.
  intros Hsub Hlen.
  induction energies as [|energy rest IH]; intros p e; cbn [grouping_loop];
    [discriminate|].
  unfold group_term at 1. unfold Pd.loc.
  destruct (align_total
              (combine ic_index (map (fun k => PrimFloat.eqb k energy) ke))
              (Pd.index df_res)) as [bs ->].
  { intros l Hl. rewrite map_fst_combine by now rewrite length_map.
    now apply Hsub. }
  cbn [obind].
  destruct (Pd.getitem _ "Y") as [sel|e'] eqn:G; cbn [obind].
  - apply IH.
  - intros [= <-]. exact (getitem_raises _ _ _ G).
Qed.

Section CallFailures.
Context {reader : FloatReader} {simion : Simion}.

Lemma loaded_grouping_raises (text : string) (df_ic df_res : Pd.DataFrame) (e : exn) :
  tables_of_text text = Return (df_ic, df_res) ->
  grouping_penalty df_ic df_res = Raise e ->
  e = KeyError "KE" \/ e = KeyError "Y" \/ e = AttributeError "unique".
Proof.
  intros Htab.
  destruct (tables_of_text_invariant _ _ _ Htab)
    as (_ & _ & Hrows & Hic & Hres & Hcols & _).
  unfold grouping_penalty.
  destruct (Pd.getitem df_ic "KE") as [[c|cs]|e'] eqn:G; cbn [obind].
  - intros H. right. left.
    apply (grouping_loop_raises _ _ _ _) in H; [exact H| |].
    + rewrite Hic, Hres. intros l. apply range_In_le.
      destruct Hrows as [-> | ->]; lia.
    + rewrite to_float64_length.
      destruct (getitem_series_In _ _ _ G) as [l Hl].
      rewrite Forall_forall in Hcols. specialize (Hcols _ Hl). cbn [snd] in Hcols.
      rewrite Hcols, Hic, range_length. reflexivity.
  - intros [= <-]. auto.
  - intros [= <-]. left. exact (getitem_raises _ _ _ G).
Qed.

(** X17. The ways [vmi_cost_function] can fail: IndexError for a short
    ladder, FileNotFoundError for the results file, a ValueError, KeyError for
    KE or for Y, and AttributeError for a label KE on several columns; the
    row selector never fails to align. *)
Theorem vmi_cost_function_failures (voltages : list float)
    (workspace_filename rec_filename data_filename : string) (w : world) (e : exn) :
  fst (vmi_cost_function voltages workspace_filename rec_filename data_filename w)
  = Raise e ->
  e = IndexError
  \/ e = FileNotFoundError (data_filename ++ ".txt")
  \/ (exists why, e = ValueError why)
  \/ e = KeyError "KE"
  \/ e = KeyError "Y"
  \/ e = AttributeError "unique".
Proof.
  destruct voltages as [|v0 [|v1 rest]]; try (intros [= <-]; now left).
  rewrite vmi_cost_function_spec. cbv zeta.
  destruct (results_disk _ _ _ _ _ _ _) as [text|].
  - destruct (tables_of_text text) as [[df_ic df_res]|e'] eqn:T.
    + cbn [fst snd].
      destruct (grouping_penalty df_ic df_res) as [g|e'] eqn:G; [discriminate|].
      intros [= <-].
      destruct (loaded_grouping_raises _ _ _ _ T G) as [-> | [-> | ->]]; auto 10.
    + intros [= <-]. right. right. left. exact (tables_of_text_raises _ _ T).
  - intros [= <-]. auto.
Qed.

End CallFailures.

(** ** Examples of the further properties *)

Lemma header_scan_terminated_line_witness :
  header_scan (Py.readlines Example.four_rows)
  = ["Ion N"; "KE"; String.append "Y" (Py.chr Py.DQ)].
Proof.
  exact (header_scan_terminated_line
           (Example.line "Begin Fly" :: repeat (Example.line EmptyString) 9)
           (Example.line EmptyString
              :: map Example.line ["1,10.0,0.5"; "1,9.5,1.0"; "2,20.0,0.25"; "2,19.0,2.0"])
           ["Ion N"; "KE"; "Y"]
           ltac:(discriminate) eq_refl eq_refl eq_refl).
Defined.

Lemma header_scan_last_line_witness :
  header_scan [Example.line "Begin Fly";
               String.concat (Py.chr Py.COMMA) (map Py.quoted ["Ion N"; "KE"; "Y"])]
  = ["Ion N"; "KE"; "Y"].
Proof.
  exact (header_scan_last_line [Example.line "Begin Fly"] ["Ion N"; "KE"; "Y"]
           ltac:(discriminate) eq_refl eq_refl eq_refl).
Defined.

Lemma load_flight_data_tables_invariant_witness :
  let tables := Example.loaded Example.three_rows in
  Pd.labels (fst tables) = Pd.labels (snd tables)
  /\ tl (Pd.labels (fst tables)) = header_scan (Py.readlines Example.three_rows)
  /\ (Pd.nrows (fst tables) = Pd.nrows (snd tables)
      \/ Pd.nrows (fst tables) = S (Pd.nrows (snd tables)))
  /\ Pd.index (fst tables) = Pd.range (Pd.nrows (fst tables))
  /\ Pd.index (snd tables) = Pd.range (Pd.nrows (snd tables))
  /\ Forall (fun lc => Pd.col_length (snd lc) = Pd.nrows (fst tables))
            (Pd.columns (fst tables))
  /\ Forall (fun lc => Pd.col_length (snd lc) = Pd.nrows (snd tables))
            (Pd.columns (snd tables)).
Proof.
  apply (@load_flight_data_tables_invariant Example.decimal "data"
           Example.three_rows (Example.on_disk "data.txt" Example.three_rows)).
  - reflexivity.
  - vm_compute. reflexivity.
Defined.

Lemma load_flight_data_reads_names_and_rows_witness :
  Example.load Example.four_rows = Example.load Sample.noted.
Proof.
  apply (@load_flight_data_reads_names_and_rows Example.decimal "data"
           Example.four_rows Sample.noted
           (Example.on_disk "data.txt" Example.four_rows)
           (Example.on_disk "data.txt" Sample.noted)).
  - reflexivity.
  - reflexivity.
  - vm_compute. reflexivity.
  - vm_compute. reflexivity.
Defined.

Lemma ragged_rows_raise_value_error_witness :
  exists e, Example.load Sample.ragged = Raise e
            /\ @loadtxt_error Example.decimal e.
Proof.
  apply (@ragged_rows_raise_value_error Example.decimal "data" Sample.ragged
           (Example.on_disk "data.txt" Sample.ragged)
           ["1"; "10.0"; "0.5"]
           [["1"; "9.5"; "1.0"]; ["2"; "20.0"]; ["2"; "19.0"; "2.0"]]).
  - reflexivity.
  - vm_compute. reflexivity.
  - apply Exists_cons_tl, Exists_cons_hd. discriminate.
Defined.

Lemma header_width_mismatch_raises_witness :
  Example.load Sample.narrow_header
  = Raise (ValueError (ShapeMismatch (2%nat, 3%nat) (2%nat, 2%nat))).
Proof.
  apply (@header_width_mismatch_raises Example.decimal "data" Sample.narrow_header
           (Example.on_disk "data.txt" Sample.narrow_header)
           Sample.narrow_header_body 3).
  - reflexivity.
  - vm_compute. repeat constructor.
  - repeat constructor.
  - apply le_n.
  - vm_compute. discriminate.
Defined.

Lemma single_row_raises_value_error_witness :
  exists why, Example.load Sample.one_row = Raise (ValueError why).
Proof.
  apply (@single_row_raises_value_error Example.decimal "data" Sample.one_row
           (Example.on_disk "data.txt" Sample.one_row) [1; 10; 0.5]%float).
  - reflexivity.
  - split.
    + vm_compute. repeat constructor.
    + vm_compute. repeat constructor.
    + discriminate.
    + vm_compute. intuition discriminate.
Defined.

Lemma header_name_index_gives_level_0_witness :
  exists initial_table final_table,
    Example.load Sample.index_named = Return (initial_table, final_table)
    /\ Pd.labels initial_table
       = "level_0" :: header_scan (Py.readlines Sample.index_named)
    /\ Pd.labels final_table
       = "level_0" :: header_scan (Py.readlines Sample.index_named).
Proof.
  apply (proj1 (@header_name_index_gives_level_0 Example.decimal "data"
                  Sample.index_named
                  (Example.on_disk "data.txt" Sample.index_named)
                  Sample.index_named_body eq_refl
                  ltac:(vm_compute; repeat constructor)
                  ltac:(vm_compute; repeat constructor)
                  (le_S _ _ (le_S _ _ (le_n 2)))
                  ltac:(vm_compute; auto))).
  vm_compute. intuition discriminate.
Defined.

Lemma load_flight_data_failures_witness :
  FileNotFoundError "data.txt" = FileNotFoundError ("data" ++ ".txt")
  \/ exists why, FileNotFoundError "data.txt" = ValueError why.
Proof.
  apply (@load_flight_data_failures Example.decimal "data" Example.empty_world).
  reflexivity.
Defined.

Lemma vmi_cost_function_short_ladder_witness :
  @vmi_cost_function Example.decimal (Example.writes Example.two_groups_file)
    [3000]%float "test" "data" "data" Example.empty_world
  = (Raise IndexError, Example.empty_world).
Proof.
  apply vmi_cost_function_short_ladder. apply le_n.
Defined.

Lemma vmi_cost_function_ignores_stale_results_witness :
  fst (@vmi_cost_function Example.decimal Sample.idle [3000; 100]%float
         "test" "data" "data" (Example.on_disk "data.txt" Example.two_groups_file))
  = Raise (FileNotFoundError ("data" ++ ".txt")).
Proof.
  apply (@vmi_cost_function_ignores_stale_results Example.decimal Sample.idle).
  - apply le_n.
  - intros d H. exact H.
Defined.

Lemma vmi_cost_function_passes_loader_failure_witness :
  @vmi_cost_function Example.decimal (Example.writes Example.bad_token)
    [3000; 100]%float "test" "data" "data" Example.empty_world
  = (Raise (ValueError (CouldNotConvert "abc")),
     {| disk := @results_disk (Example.writes Example.bad_token) 3000 100
                  "test" "data" "data" (disk Example.empty_world);
        printed := [] |}).
Proof.
  apply (@vmi_cost_function_passes_loader_failure Example.decimal
           (Example.writes Example.bad_token) 3000%float 100%float []
           "test" "data" "data" Example.bad_token Example.empty_world).
  - reflexivity.
  - vm_compute. reflexivity.
Defined.

Lemma vmi_cost_function_never_negative_witness :
  penalty_not_negative (Scalar 4) = true.
Proof.
  apply (@vmi_cost_function_never_negative Example.decimal
           (Example.writes Example.two_groups_file)
           [3000; 100]%float "test" "data" "data" Example.empty_world).
  vm_compute. reflexivity.
Defined.

Lemma vmi_cost_function_needs_KE_witness :
  fst (@vmi_cost_function Example.decimal (Example.writes Sample.ke_last)
         [3000; 100]%float "test" "data" "data" Example.empty_world)
  = Raise (KeyError "KE").
Proof.
  apply (@vmi_cost_function_needs_KE Example.decimal (Example.writes Sample.ke_last)
           3000%float 100%float [] "test" "data" "data" Sample.ke_last
           Example.empty_world Sample.ke_last_body).
  - reflexivity.
  - split.
    + vm_compute. repeat constructor.
    + vm_compute. repeat constructor.
    + discriminate.
    + vm_compute. intuition discriminate.
  - vm_compute. lia.
  - vm_compute. intuition discriminate.
Defined.

Lemma vmi_cost_function_failures_witness :
  KeyError "Y" = IndexError
  \/ KeyError "Y" = FileNotFoundError ("data" ++ ".txt")
  \/ (exists why, KeyError "Y" = ValueError why)
  \/ KeyError "Y" = KeyError "KE"
  \/ KeyError "Y" = KeyError "Y"
  \/ KeyError "Y" = AttributeError "unique".
Proof.
  apply (@vmi_cost_function_failures Example.decimal
           (Example.writes Example.four_rows)
           [3000; 100]%float "test" "data" "data" Example.empty_world).
  vm_compute. reflexivity.
Defined.

(** ** The two terms of the penalty *)

Section CallTerms.
Context {reader : FloatReader} {simion : Simion}.

(** What a call returns when the file the fly run leaves loads and the
    energy groups give [g]. *)
Lemma vmi_cost_function_value (v0 v1 : float) (rest : list float)
    (workspace_filename rec_filename data_filename text : string) (w : world)
    (df_ic df_res : Pd.DataFrame) (g : penalty_value) :
  results_disk v0 v1 workspace_filename rec_filename data_filename (disk w)
    (data_filename ++ ".txt") = Some text ->
  tables_of_text text = Return (df_ic, df_res) ->
  grouping_penalty df_ic df_res = Return g ->
  fst (vmi_cost_function (v0 :: v1 :: rest) workspace_filename rec_filename
         data_filename w)
  = Return (Nat.iter (count_increasing (v0 :: v1 :: rest))
              (fun p => padd p (Scalar 500)) g).
Proof.
  intros Hdisk Htab Hg.
  rewrite vmi_cost_function_spec. cbv zeta.
  rewrite Hdisk, Htab. cbn [fst snd]. rewrite Hg. cbn [fst].
  now rewrite monotonicity_loop_count.
Qed.

(** C5. When the file the fly run leaves loads and its energy groups give
    the penalty [g], [vmi_cost_function] returns [g] with the constant 500
    added once for each adjacent pair of voltages whose later voltage is the
    greater, whatever [g] is; for the ladder 3000, 3500, 3200 it returns
    [g + 500]. *)
Theorem vmi_cost_function_adds_500_per_increase (v0 v1 : float) (rest : list float)
    (workspace_filename rec_filename data_filename text : string) (w : world)
    (df_ic df_res : Pd.DataFrame) (g : penalty_value) :
  results_disk v0 v1 workspace_filename rec_filename data_filename (disk w)
    (data_filename ++ ".txt") = Some text ->
  tables_of_text text = Return (df_ic, df_res) ->
  grouping_penalty df_ic df_res = Return g ->
  fst (vmi_cost_function (v0 :: v1 :: rest) workspace_filename rec_filename
         data_filename w)
  = Return (Nat.iter (count_increasing (v0 :: v1 :: rest))
              (fun p => padd p (Scalar 500)) g)
  /\ (v0 :: v1 :: rest = [3000; 3500; 3200]%float ->
      fst (vmi_cost_function [3000; 3500; 3200]%float workspace_filename
             rec_filename data_filename w)
      = Return (padd g (Scalar 500))).
Proof.
  intros Hdisk Htab Hg.
  pose proof (vmi_cost_function_value v0 v1 rest _ _ _ _ _ _ _ _ Hdisk Htab Hg) as H.
  split; [exact H|].
  intros E. rewrite E in H. exact H.
Qed.

(** Two loaded tables of one number of rows are paired row for row. *)
Lemma loaded_columns_paired (text : string) (df_ic df_res : Pd.DataFrame)
    (ke ys : list float) :
  tables_of_text text = Return (df_ic, df_res) ->
  Pd.nrows df_ic = Pd.nrows df_res ->
  Pd.getitem df_ic "KE" = Return (Pd.Series (Pd.Float64 ke)) ->
  Pd.getitem df_res "Y" = Return (Pd.Series (Pd.Float64 ys)) ->
  paired df_ic df_res ke ys.
Proof.
  intros Htab Hn Hke Hy.
  destruct (tables_of_text_invariant _ _ _ Htab)
    as (_ & _ & _ & Iic & Ires & Cic & Cres).
  destruct (getitem_series_In _ _ _ Hke) as (l & Hin).
  destruct (getitem_series_In _ _ _ Hy) as (l' & Hin').
  rewrite Forall_forall in Cic, Cres.
  apply Cic in Hin. apply Cres in Hin'. cbn [snd Pd.col_length] in Hin, Hin'.
  unfold paired. rewrite Hin, Hin'.
  repeat split; auto; congruence.
Qed.

(** C6, amended. When the two tables loaded from the file the fly run leaves
    have the same number of rows, the rows of equal initial energy have equal
    final [Y], every final [Y] is finite and no initial energy is
    not-a-number, the penalty of the energy groups is exactly 0, and
    [vmi_cost_function] returns what the voltages alone add to 0. *)
Theorem grouping_term_zero_spread (v0 v1 : float) (rest : list float)
    (workspace_filename rec_filename data_filename text : string) (w : world)
    (df_ic df_res : Pd.DataFrame) (ke ys : list float) :
  results_disk v0 v1 workspace_filename rec_filename data_filename (disk w)
    (data_filename ++ ".txt") = Some text ->
  tables_of_text text = Return (df_ic, df_res) ->
  Pd.nrows df_ic = Pd.nrows df_res ->
  Pd.getitem df_ic "KE" = Return (Pd.Series (Pd.Float64 ke)) ->
  Pd.getitem df_res "Y" = Return (Pd.Series (Pd.Float64 ys)) ->
  forallb (fun k => negb (PrimFloat.is_nan k)) ke = true ->
  forallb PrimFloat.is_finite ys = true ->
  zero_spread ke ys = true ->
  grouping_penalty df_ic df_res = Return (Scalar 0)
  /\ fst (vmi_cost_function (v0 :: v1 :: rest) workspace_filename rec_filename
            data_filename w)
     = Return (Nat.iter (count_increasing (v0 :: v1 :: rest))
                 (fun p => padd p (Scalar 500)) (Scalar 0)).
Proof.
  intros Hdisk Htab Hn Hke Hy Nke Fys Hzero.
  destruct (loaded_columns_paired _ _ _ _ _ Htab Hn Hke Hy)
    as (Hic & Hres & Lys & _ & _).
  assert (G : grouping_penalty df_ic df_res = Return (Scalar 0)).
  { rewrite (grouping_penalty_paired df_ic df_res ke ys _ Hic Hres Hke Hy eq_refl).
    now rewrite spread_sum_zero by congruence. }
  split; [exact G|].
  now apply (vmi_cost_function_value v0 v1 rest _ _ _ text w df_ic df_res).
Qed.

End CallTerms.

(** The ladder 3000, 3500, 3200 on the file of two groups, for C5: the
    groups give 4.0 and the ladder adds 500 once. *)
Lemma vmi_cost_function_adds_500_per_increase_witness :
  fst (@vmi_cost_function Example.decimal (Example.writes Example.two_groups_file)
         [3000; 3500; 3200]%float "test" "data" "data" Example.empty_world)
  = Return (Scalar 504).
Proof.
  apply (proj2 (@vmi_cost_function_adds_500_per_increase Example.decimal
           (Example.writes Example.two_groups_file)
           3000%float 3500%float [3200%float] "test" "data" "data"
           Example.two_groups_file Example.empty_world
           (fst (Example.loaded Example.two_groups_file))
           (snd (Example.loaded Example.two_groups_file))
           (Scalar 4)
           ltac:(reflexivity) ltac:(vm_compute; reflexivity)
           ltac:(vm_compute; reflexivity))).
  reflexivity.
Defined.

(** Two focused groups, for C6 as amended. *)
Lemma grouping_term_zero_spread_witness :
  grouping_penalty (fst (Example.loaded Example.focused))
                   (snd (Example.loaded Example.focused))
  = Return (Scalar 0)
  /\ fst (@vmi_cost_function Example.decimal (Example.writes Example.focused)
            [3000; 3500; 3200]%float "test" "data" "data" Example.empty_world)
     = Return (Scalar 500).
Proof.
  apply (@grouping_term_zero_spread Example.decimal (Example.writes Example.focused)
           3000%float 3500%float [3200%float] "test" "data" "data"
           Example.focused Example.empty_world
           (fst (Example.loaded Example.focused))
           (snd (Example.loaded Example.focused))
           [10; 20; 10; 20]%float [1.5; -2; 1.5; -2]%float).
  - reflexivity.
  - vm_compute. reflexivity.
  - reflexivity.
  - vm_compute. reflexivity.
  - vm_compute. reflexivity.
  - reflexivity.
  - reflexivity.
  - reflexivity.
Defined.

(** C6, counterexample. Three files that load and in which the rows of equal
    initial energy have equal final [Y], with a penalty of the groups that
    is not-a-number, not 0: two ions of one energy whose final [Y] are both
    infinite; three body rows, where the second ion has an energy and no
    final row; and two ions whose initial energy is not-a-number. *)
Lemma zero_spread_term_not_a_number :
  (exists df_ic df_res ke ys,
      Example.load Example.infinite_y = Return (df_ic, df_res)
      /\ paired df_ic df_res ke ys
      /\ zero_spread ke ys = true
      /\ grouping_penalty df_ic df_res = Return (Scalar nan)
      /\ grouping_penalty df_ic df_res <> Return (Scalar 0))
  /\ (exists df_ic df_res,
         Example.load Sample.unpaired = Return (df_ic, df_res)
         /\ Pd.getitem df_ic "KE" = Return (Pd.Series (Pd.Float64 [10; 20]%float))
         /\ Pd.getitem df_res "Y" = Return (Pd.Series (Pd.Float64 [1.5]%float))
         /\ zero_spread [10; 20]%float [1.5]%float = true
         /\ grouping_penalty df_ic df_res = Return (Scalar nan)
         /\ grouping_penalty df_ic df_res <> Return (Scalar 0))
  /\ (exists df_ic df_res,
         Example.load Sample.nan_energy = Return (df_ic, df_res)
         /\ paired df_ic df_res [nan; nan]%float [1.5; 1.5]%float
         /\ zero_spread [nan; nan]%float [1.5; 1.5]%float = true
         /\ grouping_penalty df_ic df_res = Return (Scalar nan)
         /\ grouping_penalty df_ic df_res <> Return (Scalar 0)).
Proof.
  assert (N : forall o : outcome penalty_value,
             o = Return (Scalar nan) -> o <> Return (Scalar 0)).
  { intros o -> H. apply nan_is_not_zero. congruence. }
  split; [|split].
  - exists (fst (Example.loaded Example.infinite_y)),
           (snd (Example.loaded Example.infinite_y)),
           [10; 10]%float, [infinity; infinity]%float.
    split; [vm_compute; reflexivity|].
    split; [repeat split; vm_compute; reflexivity|].
    split; [reflexivity|].
    split; [vm_compute; reflexivity|].
    apply N. vm_compute. reflexivity.
  - exists (fst (Example.loaded Sample.unpaired)),
           (snd (Example.loaded Sample.unpaired)).
    split; [vm_compute; reflexivity|].
    split; [vm_compute; reflexivity|].
    split; [vm_compute; reflexivity|].
    split; [reflexivity|].
    split; [vm_compute; reflexivity|].
    apply N. vm_compute. reflexivity.
  - exists (fst (Example.loaded Sample.nan_energy)),
           (snd (Example.loaded Sample.nan_energy)).
    split; [vm_compute; reflexivity|].
    split; [repeat split; vm_compute; reflexivity|].
    split; [reflexivity|].
    split; [vm_compute; reflexivity|].
    apply N. vm_compute. reflexivity.
Qed.

(** ** The two groups of the scenario *)

(** C4. The file of the scenario under the header of the quoted names Ion N,
    KE and Y, ended by a line terminator: the scan leaves the closing quote
    on the last name, the final table holds the final [Y] of 1.0, 4.0, 1.0
    and 2.0 under that name and has no column Y, and for every ladder of at
    least two voltages [vmi_cost_function] raises KeyError for Y instead of
    returning 4.0. *)
Theorem two_groups_y_last_raise_KeyError :
  header_scan (Py.readlines Sample.two_groups_y_last)
  = ["Ion N"; "KE"; "Y" ++ Py.chr Py.DQ]
  /\ (exists df_ic df_res,
         Example.load Sample.two_groups_y_last = Return (df_ic, df_res)
         /\ Pd.getitem df_ic "KE"
            = Return (Pd.Series (Pd.Float64 [10; 20; 10; 20]%float))
         /\ Pd.getitem df_res ("Y" ++ Py.chr Py.DQ)
            = Return (Pd.Series (Pd.Float64 [1; 4; 1; 2]%float))
         /\ Pd.getitem df_res "Y" = Raise (KeyError "Y"))
  /\ forall (v0 v1 : float) (rest : list float) (w : world),
       fst (@vmi_cost_function Example.decimal
              (Example.writes Sample.two_groups_y_last)
              (v0 :: v1 :: rest) "test" "data" "data" w)
       = Raise (KeyError "Y").
Proof.
  split; [reflexivity|]. split.
  - eexists _, _. split; [vm_compute; reflexivity|].
    repeat split; vm_compute; reflexivity.
  - intros v0 v1 rest w. rewrite vmi_cost_function_spec. cbv zeta.
    assert (D : @results_disk (Example.writes Sample.two_groups_y_last)
                  v0 v1 "test" "data" "data" (disk w) ("data" ++ ".txt")
                = Some Sample.two_groups_y_last) by reflexivity.
    rewrite D.
    assert (T : @tables_of_text Example.decimal Sample.two_groups_y_last
                = Return (Example.loaded Sample.two_groups_y_last))
      by (vm_compute; reflexivity).
    rewrite T. cbn [fst snd].
    assert (G : grouping_penalty (fst (Example.loaded Sample.two_groups_y_last))
                                 (snd (Example.loaded Sample.two_groups_y_last))
                = Raise (KeyError "Y")) by (vm_compute; reflexivity).
    unfold Example.loaded in G |- *.
    rewrite G. reflexivity.
Qed.

(** *** Columns of a table by the place of their name *)

Lemma filter_label_none (names : list string) (cols : list Pd.column)
    (label : string) :
  ~ In label names ->
  filter (fun lc : string * Pd.column => String.eqb (fst lc) label)
         (combine names cols) = [].
Proof.
  revert cols. induction names as [|n names IH]; intros cols Hn; [reflexivity|].
  destruct cols as [|c cols]; [reflexivity|].
  cbn [combine filter fst].
  destruct (String.eqb_spec n label) as [->|_].
  - destruct Hn. now left.
  - apply IH. intros H. apply Hn. now right.
Qed.

Lemma filter_label_unique (names : list string) (cols : list Pd.column)
    (label : string) (j : nat) (c : Pd.column) :
  nth_error names j = Some label ->
  nth_error cols j = Some c ->
  (forall i, nth_error names i = Some label -> i = j) ->
  filter (fun lc : string * Pd.column => String.eqb (fst lc) label)
         (combine names cols) = [(label, c)].
Proof.
  revert cols j. induction names as [|n names IH]; intros cols j Hj Hc Hu.
  - now destruct j.
  - destruct cols as [|c0 cols]; [now destruct j|].
    cbn [combine filter fst].
    destruct j as [|j]; cbn [nth_error] in Hj, Hc.
    + injection Hj as ->. injection Hc as ->.
      rewrite String.eqb_refl. f_equal.
      apply filter_label_none. intros Hin.
      apply In_nth_error in Hin as (i & Hi).
      specialize (Hu (S i) Hi). discriminate.
    + destruct (String.eqb_spec n label) as [->|_].
      * specialize (Hu 0%nat eq_refl). discriminate.
      * apply (IH cols j Hj Hc). intros i Hi.
        specialize (Hu (S i) Hi). now injection Hu.
Qed.

Lemma getitem_expected_table (names : list string) (body : list (list float))
    (start : nat) (label : string) (j : nat) :
  label <> "index" ->
  nth_error names j = Some label ->
  (forall i, nth_error names i = Some label -> i = j) ->
  Pd.getitem (expected_table names body start) label
  = Return (Pd.Series (Pd.column_of (Pd.every_other (skipn start body)) j)).
Proof.
  intros Hl Hj Hu. unfold Pd.getitem, expected_table. cbn [Pd.columns filter fst].
  destruct (String.eqb_spec "index" label) as [E|_]; [now destruct Hl|].
  rewrite (filter_label_unique names _ label j
             (Pd.column_of (Pd.every_other (skipn start body)) j) Hj); auto.
  assert (Hlt : (j < List.length names)%nat)
    by (apply nth_error_Some; congruence).
  rewrite nth_error_map, nth_error_seq.
  apply Nat.ltb_lt in Hlt. rewrite Hlt. reflexivity.
Qed.

Section FromFile.
Context {reader : FloatReader} {simion : Simion}.

(** X18. The scenario of two groups, from the file alone: the fly run leaves
    a well-formed file of eight body rows; the scan of its header gives the
    name KE at place [j] and nowhere else and the name Y at place [k] and
    nowhere else; the numbers at place [j] of the rows at even positions and
    the numbers at place [k] of the rows at odd positions form two groups of
    two ions, with final [Y] of 1.0 and 1.0 in one and of 2.0 and 4.0 in the
    other; and no voltage is greater than the one before it. Then
    [vmi_cost_function] returns exactly 4.0. *)
Theorem vmi_cost_function_two_groups_of_file (v0 v1 : float) (rest : list float)
    (workspace_filename rec_filename data_filename text : string) (w : world)
    (body : list (list float)) (j k : nat) :
  let names := header_scan (Py.readlines text) in
  results_disk v0 v1 workspace_filename rec_filename data_filename (disk w)
    (data_filename ++ ".txt") = Some text ->
  well_formed text body ->
  List.length body = 8%nat ->
  nth_error names j = Some "KE" ->
  (forall i, nth_error names i = Some "KE" -> i = j) ->
  nth_error names k = Some "Y" ->
  (forall i, nth_error names i = Some "Y" -> i = k) ->
  two_groups (map (fun row => nth j row nan) (Pd.every_other body))
             (map (fun row => nth k row nan) (Pd.every_other (skipn 1 body))) ->
  count_increasing (v0 :: v1 :: rest) = 0%nat ->
  fst (vmi_cost_function (v0 :: v1 :: rest) workspace_filename rec_filename
         data_filename w)
  = Return (Scalar 4).
Proof.
  intros names Hdisk Hwf Hlen Hj Uj Hk Uk Hgroups Hmono.
  set (ke := map (fun row => nth j row nan) (Pd.every_other body)) in *.
  set (ys := map (fun row => nth k row nan) (Pd.every_other (skipn 1 body))) in *.
  assert (Htab := tables_of_well_formed _ _ Hwf). fold names in Htab.
  specialize (Htab ltac:(lia)).
  assert (Hke : Pd.getitem (expected_table names body 0) "KE"
                = Return (Pd.Series (Pd.Float64 ke))).
  { rewrite (getitem_expected_table names body 0 "KE" j); auto. discriminate. }
  assert (Hy : Pd.getitem (expected_table names body 1) "Y"
               = Return (Pd.Series (Pd.Float64 ys))).
  { rewrite (getitem_expected_table names body 1 "Y" k); auto. discriminate. }
  destruct (loaded_tables_paired text body 4 _ _ ke ys Hwf Hlen Htab Hke Hy)
    as (Hic & Hres & Lys & _ & _).
  rewrite (vmi_cost_function_value v0 v1 rest _ _ _ text w _ _
             (Scalar (spread_sum ke ys)) Hdisk Htab
             (grouping_penalty_paired _ _ ke ys _ Hic Hres Hke Hy eq_refl)).
  rewrite Hmono. cbn [Nat.iter nat_rect].
  now rewrite (two_groups_spread_sum ke ys Lys Hgroups).
Qed.

End FromFile.

Lemma two_groups_file_well_formed :
  @well_formed Example.decimal Example.two_groups_file Sample.two_groups_body.
Proof.
  split.
  - vm_compute. repeat constructor.
  - vm_compute. repeat constructor.
  - discriminate.
  - vm_compute. intuition discriminate.
Qed.

(** The starting voltages of the script on the file of two groups, whose
    header has a fourth name behind Y. *)
Lemma vmi_cost_function_two_groups_of_file_witness :
  fst (@vmi_cost_function Example.decimal (Example.writes Example.two_groups_file)
         [3000; 100]%float "test" "data" "data" Example.empty_world)
  = Return (Scalar 4).
Proof.
  apply (@vmi_cost_function_two_groups_of_file Example.decimal
           (Example.writes Example.two_groups_file)
           3000%float 100%float [] "test" "data" "data" Example.two_groups_file
           Example.empty_world Sample.two_groups_body 1%nat 2%nat).
  - reflexivity.
  - exact two_groups_file_well_formed.
  - reflexivity.
  - reflexivity.
  - intros [|[|[|[|[|i]]]]]; vm_compute; intros H; (reflexivity || discriminate H).
  - reflexivity.
  - intros [|[|[|[|[|i]]]]]; vm_compute; intros H; (reflexivity || discriminate H).
  - exists 10%float, 20%float. repeat split.
    cbn. apply perm_skip.
    apply (Permutation_cons_append [(10, 1); (20, 2)]%float).
  - reflexivity.
Defined.
